(** * Ladybug: annual irradiance engine (Wea), header and temperature type

    A shallow embedding of [ladybug/wea.py], [ladybug/header.py] and
    [ladybug/types/temperature.py].

    Conventions of the embedding.
    - Python integers are [Z].  Python floats are modelled by exact rationals
      [Q] wherever the code only stores, compares or does field arithmetic on
      them, and by the real numbers [R] where it calls [math.sin], [math.cos]
      or [Vector3.angle]; rounding is not modelled.
    - A Python call that may raise returns [result A]: either [OK a] or
      [Raise e] with the exception that ends the call.
    - A Python dict used as JSON data is a [gmap string json]; a function that
      mutates the dict of its caller returns the dict it leaves behind.
    - The collaborators of [wea.py] that are not part of the sources
      (DateTime, AnalysisPeriod, Sunpath, EPW, STAT, the sky models, the JSON
      form of Location and DataCollection, ...) are the fields of the class
      [wea.Collaborators]; every theorem of a [Section] holds for all of them,
      and the module [demo] gives one instance to run the model on.
    - [header.py] is part of the sources: the [Header(...)] calls of [wea.py]
      are embedded as they bind against [Header.__init__] ([wea.Header_new]). *)

From Stdlib Require Import ZArith QArith Qround Qreals Reals Lra Lia String Ascii
  DecimalString.
From stdpp Require Import gmap strings list.

Set Warnings "-register-all,-abstract-large-number,-inconsistent-scopes".
Open Scope Z_scope.

(** ** The Python runtime the three modules rely on *)
Module Py.

Inductive exn :=
| AssertionError (msg : string)
| ZeroDivisionError
| IndexError
| KeyError (key : string)
| TypeError (msg : string)
| ValueError (msg : string)
| AttributeError (attr : string)
| UnboundLocalError (var : string)
| IOError (msg : string).

Inductive result (A : Type) :=
| OK (a : A)
| Raise (e : exn).
Arguments OK {A} a.
Arguments Raise {A} e.

#[export] Instance result_ret : MRet result := fun A a => OK a.
#[export] Instance result_bind : MBind result :=
  fun A B f m => match m with OK a => f a | Raise e => Raise e end.

(** [assert cond, msg] *)
Definition assert (cond : bool) (msg : string) : result unit :=
  if cond then OK tt else Raise (AssertionError msg).

(** JSON-like Python values: what [json.load] gives and [to_json] builds. *)
Inductive json :=
| JNone
| JBool (b : bool)
| JInt (z : Z)
| JFloat (q : Q)
| JStr (s : string)
| JList (l : list json)
| JDict (d : list (string * json)).

(** Truth value of a Python object ([x or y], [a if x else b]). *)
Definition truthy (v : json) : bool :=
  match v with
  | JNone => false
  | JBool b => b
  | JInt z => negb (z =? 0)
  | JFloat q => negb (Qeq_bool q 0)
  | JStr s => negb (String.eqb s EmptyString)
  | JList l => match l with [] => false | _ => true end
  | JDict d => match d with [] => false | _ => true end
  end.

(** [isinstance(v, int)]; [bool] is a subclass of [int] with values 0 and 1. *)
Definition as_int (v : json) : option Z :=
  match v with
  | JInt z => Some z
  | JBool b => Some (if b then 1 else 0)
  | _ => None
  end.

(** [l[i]] on a list or tuple: a negative index counts from the end, and an
    index outside [-len, len) raises IndexError. *)
Definition index (n : nat) (i : Z) : result nat :=
  let j := if i <? 0 then i + Z.of_nat n else i in
  if (j <? 0) || (Z.of_nat n <=? j) then Raise IndexError else OK (Z.to_nat j).

Definition getitem {A : Type} (l : list A) (i : Z) : result A :=
  k ← index (length l) i;
  match l !! k with
  | Some x => OK x
  | None => Raise IndexError
  end.

(** [enumerate(l)] *)
Definition enumerate {A : Type} (l : list A) : list (Z * A) :=
  zip (seqZ 0 (Z.of_nat (length l))) l.

(** [l[-n:]] for a positive [n] *)
Definition last_n {A : Type} (n : nat) (l : list A) : list A :=
  drop (length l - n) l.

(** The newline character and the double quote. *)
Definition nl : string := String (ascii_of_nat 10) EmptyString.
Definition dquote : string := String (ascii_of_nat 34) EmptyString.

(** [str(type(v))], as Python 3 prints it. *)
Definition type_name (v : json) : string :=
  match v with
  | JNone => "<class 'NoneType'>"
  | JBool _ => "<class 'bool'>"
  | JInt _ => "<class 'int'>"
  | JFloat _ => "<class 'float'>"
  | JStr _ => "<class 'str'>"
  | JList _ => "<class 'list'>"
  | JDict _ => "<class 'dict'>"
  end.

(** [s.endswith(suffix)] and [s[:-n]] *)
Definition endswith (s suffix : string) : bool :=
  let n := String.length s in
  let m := String.length suffix in
  (m <=? n)%nat && String.eqb (String.substring (n - m) m s) suffix.

Definition drop_last (n : nat) (s : string) : string :=
  String.substring 0 (String.length s - n) s.

(** [0 < x] on numbers *)
Definition positive (x : Q) : bool := negb (Qle_bool x 0).

(** [s.replace(c, new)] for a one-character [c] *)
Fixpoint replace_char (c : ascii) (new : string) (s : string) : string :=
  match s with
  | EmptyString => EmptyString
  | String a rest =>
    if Ascii.eqb a c then new +:+ replace_char c new rest
    else String a (replace_char c new rest)
  end.

(** [s.split("**")]: the pieces between the non-overlapping occurrences of
    two stars, read from the left; a text without any is its only piece. *)
Definition cons_head (a : ascii) (pieces : list string) : list string :=
  match pieces with
  | piece :: rest => String a piece :: rest
  | [] => [String a EmptyString]
  end.

Fixpoint split_stars (s : string) : list string :=
  match s with
  | EmptyString => [EmptyString]
  | String a rest =>
    match rest with
    | String b rest' =>
      if Ascii.eqb a "*" && Ascii.eqb b "*" then EmptyString :: split_stars rest'
      else cons_head a (split_stars rest)
    | EmptyString => [String a EmptyString]
    end
  end.

(** [int(x)] on a number: truncation toward zero. *)
Definition int_of (x : Q) : Z :=
  if Qle_bool 0 x then Qfloor x else Qceiling x.

(** ["%d" % z] *)
Definition fmt_d (z : Z) : string := NilZero.string_of_int (Z.to_int z).

(** [for x in xs: acc = body(acc, x)] where the body may raise. *)
Fixpoint for_each {A S : Type} (body : S -> A -> result S) (xs : list A) (s : S)
  : result S :=
  match xs with
  | [] => OK s
  | x :: xs' => s' ← body s x; for_each body xs' s'
  end.

(** [[f(x) for x in xs]] where [f] may raise. *)
Fixpoint map_each {A B : Type} (f : A -> result B) (xs : list A) : result (list B) :=
  match xs with
  | [] => OK []
  | x :: xs' => y ← f x; ys ← map_each f xs'; OK (y :: ys)
  end.

(** [zip(a, b, c)] *)
Fixpoint zip3 {A B C : Type} (a : list A) (b : list B) (c : list C)
  : list (A * B * C) :=
  match a, b, c with
  | x :: a', y :: b', z :: c' => (x, y, z) :: zip3 a' b' c'
  | _, _, _ => []
  end.

End Py.
Import Py.

(** ** ladybug/types/temperature.py *)
Module temperature.

Definition _units : list string := ["C"; "F"; "K"]%string.

Definition _C_to_F (value : Q) : Q := (value * 9 / 5 + 32)%Q.
Definition _C_to_K (value : Q) : Q := (value + 273.15)%Q.
Definition _F_to_C (value : Q) : Q := ((value - 32) * 5 / 9)%Q.
Definition _K_to_C (value : Q) : Q := (value - 273.15)%Q.

(** The conversion methods the class defines, looked up by the pair of unit
    names as [self._X_to_Y]. *)
Definition conversion (from_unit to_unit : string) : option (Q -> Q) :=
  if String.eqb from_unit "C" && String.eqb to_unit "F" then Some _C_to_F
  else if String.eqb from_unit "C" && String.eqb to_unit "K" then Some _C_to_K
  else if String.eqb from_unit "F" && String.eqb to_unit "C" then Some _F_to_C
  else if String.eqb from_unit "K" && String.eqb to_unit "C" then Some _K_to_C
  else None.

(** Modelled from the spec: [DataTypeBase._to_unit_base] of
    [ladybug/types/_base.py], which is not among the sources.  The spec's
    [convert(values, to_unit, from_unit)] is a pure function over a sequence of
    numbers that fails (here with [ValueError], the spec's UnsupportedUnitError)
    when either unit is not legal for the quantity; every legal unit converts
    to and from the canonical unit, so the values go from [from_unit] to the
    base unit and from the base unit to [unit]. *)
Definition _to_unit_base (base_unit : string) (values : list Q)
    (unit from_unit : string) : result (list Q) :=
  values1 ←
    (if String.eqb from_unit base_unit then OK values
     else match conversion from_unit base_unit with
          | Some f => OK (map f values)
          | None => Raise (ValueError from_unit)
          end);
  if String.eqb unit base_unit then OK values1
  else match conversion base_unit unit with
       | Some f => OK (map f values1)
       | None => Raise (ValueError unit)
       end.

(** [Temperature.to_unit(values, unit, from_unit)]: "Return values in a given
    unit given the input from_unit." *)
Definition to_unit (values : list Q) (unit from_unit : string) : result (list Q) :=
  _to_unit_base "C" values unit from_unit.

(** [to_ip] and [to_si] fix which argument of [to_unit] is the target. *)
Definition to_ip (values : list Q) (from_unit : string) : result (list Q * string) :=
  if String.eqb from_unit "F" then OK (values, from_unit)
  else vs ← to_unit values "F" from_unit; OK (vs, "F"%string).

Definition to_si (values : list Q) (from_unit : string) : result (list Q * string) :=
  if String.eqb from_unit "C" || String.eqb from_unit "K" then OK (values, from_unit)
  else vs ← to_unit values "C" from_unit; OK (vs, "C"%string).

(** Two sequences of numbers are equal as Python compares them. *)
Definition same_values (l1 l2 : list Q) : Prop := Forall2 Qeq l1 l2.

End temperature.

(** ** Python dicts holding JSON data *)
Module dict.

(** [data[key]] *)
Definition getitem (data : gmap string json) (key : string) : result json :=
  match data !! key with
  | Some v => OK v
  | None => Raise (KeyError key)
  end.

(** [key in data] *)
Definition contains (data : gmap string json) (key : string) : bool :=
  bool_decide (is_Some (data !! key)).

(** [for key in keys: if key not in data: data[key] = None] *)
Definition set_missing_to_None (keys : list string) (data : gmap string json)
  : gmap string json :=
  foldl (fun d key => if contains d key then d else <[key := JNone]> d) data keys.

End dict.

(** ** ladybug/header.py *)
Module header.

(** What [header.py] imports: the data type registry and the analysis period. *)
Class Collaborators := {
  DataType : Type;
  AnalysisPeriod : Type;
  (** [DataTypes.type_by_name_and_unit(name, unit)] *)
  type_by_name_and_unit : json -> json -> result DataType;
  (** [data_type.is_unit_acceptable(unit)], without [raise_exception] *)
  is_unit_acceptable : DataType -> json -> result bool;
  (** [AnalysisPeriod.from_json(data)] *)
  AnalysisPeriod_from_json : json -> result AnalysisPeriod;
  (** [AnalysisPeriod.from_analysis_period(ap)] *)
  from_analysis_period : AnalysisPeriod -> result AnalysisPeriod;
}.

Section Header.
Context `{Collaborators}.

Record Header := {
  _data_type : DataType;
  _unit : json;
  _analysis_period : AnalysisPeriod;
  _metadata : json;
}.

(** [Header.set_data_type_and_unit] on a [DataType] object; it yields the two
    slots it assigns. *)
Definition set_data_type_and_unit (data_type : DataType) (unit : json)
  : result (DataType * json) :=
  _ ← is_unit_acceptable data_type unit;
  OK (data_type, if truthy unit then unit else JNone).

(** [Header.__init__(self, data_type, unit, analysis_period, metadata)]; its
    assertion [hasattr(data_type, 'isDataType')] holds of every [DataType]. *)
Definition __init__ (data_type : DataType) (unit : json)
    (analysis_period : AnalysisPeriod) (metadata : json) : result Header :=
  '(dt, u) ← set_data_type_and_unit data_type unit;
  ap ← from_analysis_period analysis_period;
  OK {| _data_type := dt; _unit := u; _analysis_period := ap;
        _metadata := if truthy metadata then metadata else JDict [] |}.

Definition keys : list string :=
  ["data_type"; "unit"; "analysis_period"; "metadata"]%string.

(** [Header.from_json(cls, data)]: the outcome of the call, and the dict
    [data] as the call leaves it. *)
Definition from_json (data : gmap string json) : result Header * gmap string json :=
  let data := dict.set_missing_to_None keys data in
  (v_data_type ← dict.getitem data "data_type";
   v_unit ← dict.getitem data "unit";
   data_type ← type_by_name_and_unit v_data_type v_unit;
   v_ap ← dict.getitem data "analysis_period";
   ap ← AnalysisPeriod_from_json v_ap;
   metadata ← dict.getitem data "metadata";
   v_unit' ← dict.getitem data "unit";
   __init__ data_type v_unit' ap metadata,
   data).

(** [cls] applied to the pieces of a header text: more than four positional
    arguments are a TypeError of the call; otherwise [__init__] runs, and its
    first statement [assert hasattr(data_type, 'isDataType')] fails, since
    [data_type] is a [str]. *)
Definition init_with_strings (args : list string) : result Header :=
  match args with
  | [] => Raise (TypeError "__init__() missing 1 required positional argument: 'data_type'")
  | data_type :: rest =>
    if (3 <? length rest)%nat
    then Raise (TypeError
                  ("__init__() takes from 2 to 5 positional arguments but " +:+
                   fmt_d (Z.of_nat (length args) + 1) +:+ " were given"))
    else Raise (AssertionError
                  ("data_type must be a Ladybug DataType. Got " +:+
                   type_name (JStr data_type)))
  end.

(** [str(e)] of the exceptions above *)
Definition exn_str (e : exn) : string :=
  match e with
  | AssertionError msg | TypeError msg | ValueError msg | IOError msg => msg
  | KeyError key => "'" +:+ key +:+ "'"
  | AttributeError attr => attr
  | UnboundLocalError var => var
  | ZeroDivisionError => "division by zero"
  | IndexError => "list index out of range"
  end.

(** [Header.from_header(cls, header)] on a header object or a header text *)
Definition from_header (header : Header + string) : result Header :=
  match header with
  | inl h => OK h
  | inr text =>
    let _h := replace_char ")" EmptyString
                (replace_char "(" "**" (replace_char "|" "**" text)) in
    match init_with_strings (split_stars _h) with
    | OK h => OK h
    | Raise e =>
      Raise (ValueError ("Failed to create a Header from " +:+ text +:+ "!" +:+ nl +:+
                         exn_str e))
    end
  end.

End Header.
End header.

(** ** ladybug/euclid.py, as far as [wea.py] uses it *)
Module euclid.

Record Vector3 := { x : R; y : R; z : R }.

Definition dot (a b : Vector3) : R := (x a * x b + y a * y b + z a * z b)%R.

Definition magnitude (a : Vector3) : R := sqrt (x a * x a + y a * y a + z a * z a).

(** Modelled from the spec: [Vector3.angle] of [ladybug/euclid.py], which is not
    among the sources.  The spec converts the surface normal and the sun
    position to 3-vectors and uses "their angle", "the angle between sun and
    surface normal": the arc cosine of the normalised dot product. *)
Definition angle (a b : Vector3) : R :=
  acos (dot a b / (magnitude a * magnitude b)).

End euclid.

(** ** ladybug/wea.py *)
Module wea.

(** The attributes of a [Location] that [wea.py] reads and assigns. *)
Record Location := {
  city : string;
  latitude : Q;
  longitude : Q;
  time_zone : Q;
  elevation : Q;
}.

(** What [Sunpath.calculate_sun_from_date_time] returns, as far as it is read. *)
Record Sun (DateTime : Type) := {
  altitude : Q;
  azimuth : Q;
  sun_datetime : DateTime;
}.
Arguments altitude {DateTime} _.
Arguments azimuth {DateTime} _.
Arguments sun_datetime {DateTime} _.

(** [DataPoint(value, datetime, standard, nickname)] *)
Record DataPoint (V DateTime : Type) := {
  value : V;
  datetime : DateTime;
  standard : string;
  nickname : string;
}.
Arguments value {V DateTime} _.
Arguments datetime {V DateTime} _.
Arguments standard {V DateTime} _.
Arguments nickname {V DateTime} _.

(** [DataCollection(header=...)]: an ordered sequence of data points under one
    header; [append], [len], iteration and indexing are those of its list. *)
Record DataCollection (Header V DateTime : Type) := {
  coll_header : Header;
  data : list (DataPoint V DateTime);
}.
Arguments coll_header {Header V DateTime} _.
Arguments data {Header V DateTime} _.

(** What an [EPW] object and a [STAT] object expose to [wea.py]. *)
Record EPW (Header DateTime : Type) := {
  epw_location : Location;
  direct_normal_radiation : DataCollection Header Q DateTime;
  diffuse_horizontal_radiation : DataCollection Header Q DateTime;
}.
Arguments epw_location {Header DateTime} _.
Arguments direct_normal_radiation {Header DateTime} _.
Arguments diffuse_horizontal_radiation {Header DateTime} _.

Record STAT := {
  stat_location : Location;
  monthly_tau_beam : list (option Q);
  monthly_tau_diffuse : list (option Q);
}.

(** The modules [wea.py] imports that are not part of the sources, and the
    Python built-ins it uses on text.  A [Header] object is opaque to
    [wea.py], which only builds one (see [Header_new] below), passes it on and
    calls its [set_data_type_and_unit]. *)
Class Collaborators := {
  DateTime : Type;
  AnalysisPeriod : Type;
  Header : Type;
  Sunpath : Type;
  (** location.py: [to_json], [from_json] *)
  Location_to_json : Location -> json;
  Location_from_json : json -> result Location;
  (** dt.py: [DateTime.from_moy(moy, is_leap_year)], [add_minute] and the
      attributes [hoy], [month], [day], [float_hour], [doy] *)
  from_moy : Q -> bool -> DateTime;
  add_minute : DateTime -> Z -> DateTime;
  hoy : DateTime -> Q;
  month : DateTime -> Z;
  day : DateTime -> Z;
  float_hour : DateTime -> Q;
  doy : DateTime -> Z;
  (** analysisperiod.py: [AnalysisPeriod(timestep=, is_leap_year=)] *)
  AnalysisPeriod_new : Z -> json -> result AnalysisPeriod;
  (** [header.set_data_type_and_unit(data_type, unit)] on the header of a
      series of the weather file *)
  Header_set_data_type_and_unit : Header -> string -> string -> result Header;
  (** datacollection.py: [interpolate_data(timestep)], [to_json], [from_json] *)
  interpolate_data :
    DataCollection Header Q DateTime -> Z -> result (list (DataPoint Q DateTime));
  DataCollection_to_json : DataCollection Header Q DateTime -> json;
  DataCollection_from_json : json -> result (DataCollection Header Q DateTime);
  (** sunpath.py: [Sunpath.from_location], [sp.is_leap_year = ...],
      [sp.calculate_sun_from_date_time(dt)] *)
  Sunpath_from_location : Location -> Sunpath;
  Sunpath_set_is_leap_year : Sunpath -> json -> Sunpath;
  calculate_sun_from_date_time : Sunpath -> DateTime -> Sun DateTime;
  (** epw.py and stat.py: [EPW(path)], [STAT(path)] *)
  EPW_new : string -> result (EPW Header DateTime);
  STAT_new : string -> result STAT;
  (** skymodel.py *)
  ashrae_revised_clear_sky :
    list Q -> option Q -> option Q -> result (list Q * list Q);
  ashrae_clear_sky : list Q -> Z -> Q -> result (list Q * list Q);
  zhang_huang_solar_split :
    list Q -> list Z -> list Q -> list Q -> list Q -> list Q -> list Q -> list Q ->
    bool -> result (list Q * list Q);
  (** futil.py: [write_to_file(path, data, True)] *)
  write_to_file : string -> string -> result unit;
  (** the file system and the built-ins on text: the lines of a file ([None]
      when [os.path.isfile] is false), [str.split()], [float(s)], [int(s)],
      [str.lower()], ["%.2f" % x] with its number of digits, [str(x)] *)
  file_lines : string -> option (list string);
  str_split : string -> list string;
  py_float : string -> result Q;
  py_int : string -> result Z;
  str_lower : string -> string;
  fmt_f : nat -> Q -> string;
  str_of : Q -> string;
  DateTime_str : DateTime -> string;
}.

Section Wea.
Context `{Collaborators}.

Local Abbreviation Point := (DataPoint Q DateTime).
Local Abbreviation Collection := (DataCollection Header Q DateTime).

(** [len(collection)] *)
Definition len (c : Collection) : Z := Z.of_nat (length (data c)).

(** [collection.append(point)] *)
Definition append (c : Collection) (p : Point) : Collection :=
  {| coll_header := coll_header c; data := data c ++ [p] |}.

(** [a / b] on integers under [from __future__ import division]. *)
Definition true_div (a b : Z) : result Q :=
  if b =? 0 then Raise ZeroDivisionError else OK (inject_Z a / inject_Z b)%Q.

Record Wea := {
  location : Location;
  _direct_normal_irradiance : Collection;
  _diffuse_horizontal_irradiance : Collection;
  _timestep : Z;
  _is_leap_year : json;
}.

(** The read-only properties. *)
Definition timestep (self : Wea) : Z := _timestep self.
Definition is_leap_year (self : Wea) : json := _is_leap_year self.
Definition direct_normal_irradiance (self : Wea) : Collection :=
  _direct_normal_irradiance self.
Definition diffuse_horizontal_irradiance (self : Wea) : Collection :=
  _diffuse_horizontal_irradiance self.

(** [Wea.hr_count(is_leap_year)] *)
Definition hr_count (is_leap_year : json) : Z :=
  if truthy is_leap_year then 8760 + 24 else 8760.

(** The assertion both setters make:
    [assert len(data) / self.timestep == self.hr_count(self.is_leap_year)] *)
Definition assert_annual (name : string) (timestep : Z) (is_leap_year : json)
    (data : Collection) : result unit :=
  q ← true_div (len data) timestep;
  assert (Qeq_bool q (inject_Z (hr_count is_leap_year)))
         (name +:+ " data must be annual.").

(** The setter of [direct_normal_irradiance] *)
Definition set_direct_normal_irradiance (self : Wea) (data : Collection)
  : result Wea :=
  _ ← assert_annual "direct_normal_irradiance" (timestep self) (is_leap_year self) data;
  OK {| location := location self;
        _direct_normal_irradiance := data;
        _diffuse_horizontal_irradiance := _diffuse_horizontal_irradiance self;
        _timestep := _timestep self;
        _is_leap_year := _is_leap_year self |}.

(** The setter of [diffuse_horizontal_irradiance] *)
Definition set_diffuse_horizontal_irradiance (self : Wea) (data : Collection)
  : result Wea :=
  _ ← assert_annual "diffuse_horizontal_irradiance" (timestep self) (is_leap_year self) data;
  OK {| location := location self;
        _direct_normal_irradiance := _direct_normal_irradiance self;
        _diffuse_horizontal_irradiance := data;
        _timestep := _timestep self;
        _is_leap_year := _is_leap_year self |}.

(** [Wea.__init__]: [timestep] and [is_leap_year] arrive as Python values
    ([from_json] passes what it finds in the dict). *)
Definition __init__ (location : Location) (direct_normal_irradiance : Collection)
    (diffuse_horizontal_irradiance : Collection) (timestep is_leap_year : json)
  : result Wea :=
  let timestep := if truthy timestep then timestep else JInt 1 in
  match as_int timestep with
  | None => Raise (AssertionError
                     ("timestep must be an integer. Got " +:+ type_name timestep))
  | Some ts =>
    _ ← assert_annual "direct_normal_irradiance" ts is_leap_year
          direct_normal_irradiance;
    _ ← assert_annual "diffuse_horizontal_irradiance" ts is_leap_year
          diffuse_horizontal_irradiance;
    OK {| location := location;
          _direct_normal_irradiance := direct_normal_irradiance;
          _diffuse_horizontal_irradiance := diffuse_horizontal_irradiance;
          _timestep := ts;
          _is_leap_year := is_leap_year |}
  end.

(** [Wea._get_datetimes(timestep, is_leap_year)] *)
Definition _get_datetimes (timestep : Z) (is_leap_year : bool) : list DateTime :=
  let hr_count := if is_leap_year then 8760 + 24 else 8760 in
  let adjust_time := if timestep =? 1 then 30 else 0 in
  map (fun count =>
         from_moy (60 * inject_Z count / inject_Z timestep + inject_Z adjust_time)%Q
                  is_leap_year)
      (seqZ 0 (hr_count * timestep)).

(** [Header(analysis_period=..., data_type=..., unit=..., location=...)], the
    call [wea.py] makes: [Header.__init__] of [header.py] declares
    [data_type], [unit], [analysis_period] and [metadata]; [location] is none
    of them, so binding the arguments raises TypeError before the body of
    [__init__] runs. *)
Definition Header_new (analysis_period : AnalysisPeriod) (data_type unit : string)
    (location : Location) : result Header :=
  Raise (TypeError "__init__() got an unexpected keyword argument 'location'").

(** [Wea._get_empty_data_collections(location, timestep, is_leap_year)] *)
Definition _get_empty_data_collections (location : Location) (timestep : Z)
    (is_leap_year : bool) : result (Collection * Collection) :=
  analysis_period ← AnalysisPeriod_new timestep (JBool is_leap_year);
  header_dnr ← Header_new analysis_period "Direct Normal Irradiance" "W/m2" location;
  header_dhr ← Header_new analysis_period "Diffuse Horizontal Irradiance" "W/m2" location;
  OK ({| coll_header := header_dnr; data := [] |},
      {| coll_header := header_dhr; data := [] |}).

Definition dnr_point (v : Q) (dt : DateTime) : Point :=
  {| value := v; datetime := dt; standard := "SI";
     nickname := "Direct Normal Irradiance" |}.

Definition dhr_point (v : Q) (dt : DateTime) : Point :=
  {| value := v; datetime := dt; standard := "SI";
     nickname := "Diffuse Horizontal Irradiance" |}.

(** The message [from_values] builds: the template, the hint appended to it
    when the number of direct normal values is a multiple of the hour count,
    and the four values formatted into it. *)
Definition hint (n hr : Z) : string :=
  if n mod hr =? 0
  then " Did you forget to set the timestep to " +:+ fmt_d (n / hr) +:+ "?"
  else EmptyString.

Definition err_message (hint : string) (timestep expected : Z) (name : string)
    (provided : Z) : string :=
  "For timestep " +:+ fmt_d timestep +:+ ", " +:+ fmt_d expected +:+
  " number of data for " +:+ name +:+ " is expected. " +:+ fmt_d provided +:+
  " is provided." +:+ hint.

(** [Wea.from_values] *)
Definition from_values (location : Location)
    (direct_normal_irradiance diffuse_horizontal_irradiance : list Q)
    (timestep : Z) (is_leap_year : bool) : result Wea :=
  let hr := hr_count (JBool is_leap_year) in
  let n_dir := Z.of_nat (length direct_normal_irradiance) in
  let n_dif := Z.of_nat (length diffuse_horizontal_irradiance) in
  let hint := hint n_dir hr in
  q ← true_div n_dir timestep;
  _ ← assert (Qeq_bool q (inject_Z hr))
        (err_message hint timestep (timestep * hr) "direct normal irradiance" n_dir);
  q ← true_div n_dif timestep;
  _ ← assert (Qeq_bool q (inject_Z hr))
        (err_message hint timestep (timestep * hr) "diffuse_horizontal_irradiance" n_dir);
  '(dnr, dhr) ← _get_empty_data_collections location timestep is_leap_year;
  let dts := _get_datetimes timestep is_leap_year in
  let '(dnr, dhr) :=
    foldl (fun '(dnr, dhr) '(dir_norm, diff_horiz, dt) =>
             (append dnr (dnr_point dir_norm dt),
              append dhr (dhr_point diff_horiz dt)))
          (dnr, dhr)
          (zip3 direct_normal_irradiance diffuse_horizontal_irradiance dts) in
  __init__ location dnr dhr (JInt timestep) (JBool is_leap_year).

Definition required_keys : list string :=
  ["location"; "direct_normal_irradiance"; "diffuse_horizontal_irradiance"]%string.
Definition optional_keys : list string := ["timestep"; "is_leap_year"]%string.

(** [Wea.from_json(cls, data)]: the outcome of the call, and the dict [data]
    as the call leaves it. *)
Definition from_json (data : gmap string json) : result Wea * gmap string json :=
  match
    for_each (fun _ key =>
                assert (dict.contains data key)
                       ("Required key " +:+ dquote +:+ key +:+ dquote +:+
                        " is missing!"))
             required_keys tt
  with
  | Raise e => (Raise e, data)
  | OK _ =>
    let data := dict.set_missing_to_None optional_keys data in
    (v ← dict.getitem data "location";
     location ← Location_from_json v;
     v ← dict.getitem data "direct_normal_irradiance";
     direct_normal_irradiance ← DataCollection_from_json v;
     v ← dict.getitem data "diffuse_horizontal_irradiance";
     diffuse_horizontal_irradiance ← DataCollection_from_json v;
     timestep ← dict.getitem data "timestep";
     is_leap_year ← dict.getitem data "is_leap_year";
     __init__ location direct_normal_irradiance diffuse_horizontal_irradiance
              timestep is_leap_year,
     data)
  end.

(** [Wea.to_json(self)] *)
Definition to_json (self : Wea) : gmap string json :=
  {[ "location" := Location_to_json (location self);
     "direct_normal_irradiance" :=
       DataCollection_to_json (direct_normal_irradiance self);
     "diffuse_horizontal_irradiance" :=
       DataCollection_to_json (diffuse_horizontal_irradiance self);
     "timestep" := JInt (timestep self);
     "is_leap_year" := is_leap_year self ]}.

(** [weaf.readline()]: the next line, or the empty string at the end. *)
Definition readline (weaf : list string) : string * list string :=
  match weaf with
  | [] => (EmptyString, [])
  | line :: rest => (line, rest)
  end.

(** [line.split()[-1]] *)
Definition last_word (line : string) : result string :=
  getitem (str_split line) (-1).

(** [Wea.from_file] *)
Definition from_file (weafile : string) (timestep : Z) (is_leap_year : bool)
  : result Wea :=
  match file_lines weafile with
  | None => Raise (AssertionError ("Failed to find " +:+ weafile))
  | Some weaf =>
    let '(first_line, weaf) := readline weaf in
    _ ← assert (String.prefix "place" first_line)
          ("Failed to find place in header. " +:+ weafile +:+
           " is not a valid wea file.");
    let city := String.concat " " (drop 1 (str_split first_line)) in
    let '(line, weaf) := readline weaf in
    latitude ← (w ← last_word line; py_float w);
    let '(line, weaf) := readline weaf in
    longitude ← (w ← last_word line; py_float w);
    let '(line, weaf) := readline weaf in
    tz ← (w ← last_word line; py_int w);
    let '(line, weaf) := readline weaf in
    elevation ← (w ← last_word line; py_float w);
    let '(_, weaf) := readline weaf in
    rows ← map_each
      (fun line =>
         vs ← map_each py_int (last_n 2 (str_split line));
         match vs with
         | [dirn; difh] => OK (dirn, difh)
         | _ => Raise (ValueError "unpack")
         end) weaf;
    let location :=
      {| city := city;
         latitude := latitude;
         longitude := (- longitude)%Q;
         time_zone := (inject_Z (- tz) / 15)%Q;
         elevation := elevation |} in
    from_values location (map (fun r => inject_Z (fst r)) rows)
                (map (fun r => inject_Z (snd r)) rows) timestep is_leap_year
  end.

(** The loop of [from_epw_file] over the interpolated values: the value is
    kept when the sun is up and replaced by 0 when it is not. *)
Definition sun_up_or_zero (sp : Sunpath)
    (direct_normal diffuse_horizontal : Collection)
    (values : list (Point * Point)) : Collection * Collection :=
  foldl (fun '(direct_normal, diffuse_horizontal) '(e_beam, e_diff) =>
           let sun := calculate_sun_from_date_time sp (datetime e_beam) in
           if positive (altitude sun)
           then (append direct_normal e_beam, append diffuse_horizontal e_diff)
           else (append direct_normal (dnr_point 0 (datetime e_beam)),
                 append diffuse_horizontal (dhr_point 0 (datetime e_diff))))
        (direct_normal, diffuse_horizontal) values.

Definition shift_30 (c : Collection) : Collection :=
  {| coll_header := coll_header c;
     data := map (fun p => {| value := value p;
                              datetime := add_minute (datetime p) 30;
                              standard := standard p;
                              nickname := nickname p |}) (data c) |}.

(** [Wea.from_epw_file] (the note it prints is left out) *)
Definition from_epw_file (epwfile : string) (timestep : Z) : result Wea :=
  epw ← EPW_new epwfile;
  let direct_normal := direct_normal_radiation epw in
  let diffuse_horizontal := diffuse_horizontal_radiation epw in
  h ← Header_set_data_type_and_unit (coll_header direct_normal)
        "Direct Normal Irradiance" "W/m2";
  let direct_normal := {| coll_header := h; data := data direct_normal |} in
  h ← Header_set_data_type_and_unit (coll_header diffuse_horizontal)
        "Diffuse Horizontal Irradiance" "W/m2";
  let diffuse_horizontal := {| coll_header := h; data := data diffuse_horizontal |} in
  if negb (timestep =? 1) then
    direct_norm_values ← interpolate_data direct_normal timestep;
    diffuse_horiz_values ← interpolate_data diffuse_horizontal timestep;
    '(direct_normal, diffuse_horizontal) ←
      _get_empty_data_collections (epw_location epw) timestep false;
    let sp := Sunpath_from_location (epw_location epw) in
    let '(direct_normal, diffuse_horizontal) :=
      sun_up_or_zero sp direct_normal diffuse_horizontal
                     (zip direct_norm_values diffuse_horiz_values) in
    __init__ (epw_location epw) direct_normal diffuse_horizontal
             (JInt timestep) (JBool false)
  else
    __init__ (epw_location epw) (shift_30 direct_normal) (shift_30 diffuse_horizontal)
             (JInt timestep) (JBool false).

(** The altitudes of the year's sun positions, one list per month:
    [altitudes[sun.datetime.month - 1].append(sun.altitude)] *)
Definition altitudes_by_month (sp : Sunpath) (dates : list DateTime)
  : result (list (list Q)) :=
  for_each (fun altitudes t_date =>
              let sun := calculate_sun_from_date_time sp t_date in
              let i := month (sun_datetime sun) - 1 in
              k ← index (length altitudes) i;
              bucket ← getitem altitudes i;
              OK (<[k := bucket ++ [altitude sun]]> altitudes))
           dates (replicate 12 []).

(** The inner loop of the two clear sky paths: one month's values appended
    under the dates [dates[i_dt]], [dates[i_dt + 1]], ... *)
Definition append_month (dates : list DateTime)
    (acc : Collection * Collection * Z) (rad : list Q * list Q)
  : result (Collection * Collection * Z) :=
  for_each (fun '(direct_norm_rad, diffuse_horiz_rad, i_dt) '(e_beam, e_diff) =>
              d ← getitem dates i_dt;
              OK (append direct_norm_rad (dnr_point e_beam d),
                  append diffuse_horiz_rad (dhr_point e_diff d),
                  i_dt + 1))
           (zip (fst rad) (snd rad)) acc.

(** [Wea.from_ashrae_revised_clear_sky] *)
Definition from_ashrae_revised_clear_sky (location : Location)
    (monthly_tau_beam monthly_tau_diffuse : list (option Q))
    (timestep : Z) (is_leap_year : bool) : result Wea :=
  '(direct_norm_rad, diffuse_horiz_rad) ←
    _get_empty_data_collections location timestep is_leap_year;
  let sp := Sunpath_set_is_leap_year (Sunpath_from_location location)
                                     (JBool is_leap_year) in
  let dates := _get_datetimes timestep is_leap_year in
  altitudes ← altitudes_by_month sp dates;
  '(direct_norm_rad, diffuse_horiz_rad, _) ←
    for_each (fun acc '(i_mon, alt_list) =>
                tau_b ← getitem monthly_tau_beam i_mon;
                tau_d ← getitem monthly_tau_diffuse i_mon;
                rad ← ashrae_revised_clear_sky alt_list tau_b tau_d;
                append_month dates acc rad)
             (enumerate altitudes) (direct_norm_rad, diffuse_horiz_rad, 0);
  __init__ location direct_norm_rad diffuse_horiz_rad
           (JInt timestep) (JBool is_leap_year).

(** [check_missing] of [from_stat_file] *)
Definition check_missing (opt_data : list (option Q)) (data_name : string)
  : result unit :=
  match opt_data with
  | [] => Raise (ValueError "Stat file contains no optical data.")
  | _ =>
    for_each (fun _ '(i, x) =>
                match x with
                | None => Raise (ValueError
                    ("Missing optical depth data for " +:+ data_name +:+
                     " at month " +:+ fmt_d i))
                | Some _ => OK tt
                end)
             (enumerate opt_data) tt
  end.

(** [Wea.from_stat_file] *)
Definition from_stat_file (statfile : string) (timestep : Z) (is_leap_year : bool)
  : result Wea :=
  stat ← STAT_new statfile;
  _ ← check_missing (monthly_tau_beam stat) "monthly_tau_beam";
  _ ← check_missing (monthly_tau_diffuse stat) "monthly_tau_diffuse";
  from_ashrae_revised_clear_sky (stat_location stat) (monthly_tau_beam stat)
                                (monthly_tau_diffuse stat) timestep is_leap_year.

(** [Wea.from_ashrae_clear_sky] *)
Definition from_ashrae_clear_sky (location : Location) (sky_clearness : Q)
    (timestep : Z) (is_leap_year : bool) : result Wea :=
  '(direct_norm_rad, diffuse_horiz_rad) ←
    _get_empty_data_collections location timestep is_leap_year;
  let sp := Sunpath_set_is_leap_year (Sunpath_from_location location)
                                     (JBool is_leap_year) in
  let dates := _get_datetimes timestep is_leap_year in
  altitudes ← altitudes_by_month sp dates;
  '(direct_norm_rad, diffuse_horiz_rad, _) ←
    for_each (fun acc '(i_mon, alt_list) =>
                rad ← ashrae_clear_sky alt_list (i_mon + 1) sky_clearness;
                append_month dates acc rad)
             (enumerate altitudes) (direct_norm_rad, diffuse_horiz_rad, 0);
  __init__ location direct_norm_rad diffuse_horiz_rad
           (JInt timestep) (JBool is_leap_year).

(** The parameters [from_zhang_huang_solar] gathers for every datetime of the
    year: the datetime, the sun altitude, the day of the year and
    [dry_bulb_temperature[count - (3 * timestep)]]. *)
Definition zhang_huang_parameters (sp : Sunpath) (dry_bulb_temperature : list Q)
    (timestep : Z) (is_leap_year : bool)
  : result (list (DateTime * Q * Z * Q)) :=
  map_each (fun '(count, t_date) =>
              let sun := calculate_sun_from_date_time sp t_date in
              t3 ← getitem dry_bulb_temperature (count - (3 * timestep));
              OK (t_date, altitude sun, doy (sun_datetime sun), t3))
           (enumerate (_get_datetimes timestep is_leap_year)).

Definition date_times (rows : list (DateTime * Q * Z * Q)) : list DateTime :=
  map (fun '(d, _, _, _) => d) rows.
Definition altitudes (rows : list (DateTime * Q * Z * Q)) : list Q :=
  map (fun '(_, a, _, _) => a) rows.
Definition doys (rows : list (DateTime * Q * Z * Q)) : list Z :=
  map (fun '(_, _, d, _) => d) rows.
Definition dry_bulb_t3_hrs (rows : list (DateTime * Q * Z * Q)) : list Q :=
  map (fun '(_, _, _, t) => t) rows.

(** [Wea.from_zhang_huang_solar] *)
Definition from_zhang_huang_solar (location : Location)
    (cloud_cover relative_humidity dry_bulb_temperature wind_speed : list Q)
    (atmospheric_pressure : option (list Q))
    (timestep : Z) (is_leap_year use_disc : bool) : result Wea :=
  let n := length cloud_cover in
  _ ← assert (bool_decide (n = length relative_humidity) &&
              bool_decide (length relative_humidity = length dry_bulb_temperature) &&
              bool_decide (length dry_bulb_temperature = length wind_speed))
        "lengths of input climate data must match.";
  q ← true_div (Z.of_nat n) timestep;
  _ ← assert (Qeq_bool q (inject_Z (hr_count (JBool is_leap_year))))
        "input climate data must be annual.";
  atmospheric_pressure ←
    match atmospheric_pressure with
    | Some p =>
      _ ← assert (bool_decide (length p = n))
            "length pf atmospheric_pressure must match the other input lists.";
      OK p
    | None =>
      OK (replicate (Z.to_nat (hr_count (JBool is_leap_year) * timestep)) 101325%Q)
    end;
  let sp := Sunpath_set_is_leap_year (Sunpath_from_location location)
                                     (JBool is_leap_year) in
  rows ← zhang_huang_parameters sp dry_bulb_temperature timestep is_leap_year;
  '(dir_ir, diff_ir) ←
    zhang_huang_solar_split (altitudes rows) (doys rows) cloud_cover
      relative_humidity dry_bulb_temperature (dry_bulb_t3_hrs rows) wind_speed
      atmospheric_pressure use_disc;
  '(direct_norm_rad, diffuse_horiz_rad) ←
    _get_empty_data_collections location timestep is_leap_year;
  let '(direct_norm_rad, diffuse_horiz_rad) :=
    foldl (fun '(direct_norm_rad, diffuse_horiz_rad) '(dni, dhi, t_date) =>
             (append direct_norm_rad (dnr_point dni t_date),
              append diffuse_horiz_rad (dhr_point dhi t_date)))
          (direct_norm_rad, diffuse_horiz_rad)
          (zip3 dir_ir diff_ir (date_times rows)) in
  __init__ location direct_norm_rad diffuse_horiz_rad
           (JInt timestep) (JBool is_leap_year).

(** The [hoys] and [datetimes] properties *)
Definition hoys (self : Wea) : list Q :=
  map (fun p => hoy (datetime p)) (data (direct_normal_irradiance self)).

Definition datetimes (self : Wea) : list DateTime :=
  map datetime (data (direct_normal_irradiance self)).

(** [Wea.get_irradiance_values_for_hoy] *)
Definition get_irradiance_values_for_hoy (self : Wea) (hoy : Q)
  : result (Point * Point) :=
  let count := int_of (hoy * inject_Z (timestep self))%Q in
  dir ← getitem (data (direct_normal_irradiance self)) count;
  dif ← getitem (data (diffuse_horizontal_irradiance self)) count;
  OK (dir, dif).

(** The [header] property: the six header lines of a wea file. *)
Definition header (self : Wea) : string :=
  "place " +:+ city (location self) +:+ nl +:+
  "latitude " +:+ fmt_f 2 (latitude (location self)) +:+ nl +:+
  "longitude " +:+ fmt_f 2 (- longitude (location self))%Q +:+ nl +:+
  "time_zone " +:+ fmt_d (int_of (- time_zone (location self) * 15)%Q) +:+ nl +:+
  "site_elevation " +:+ fmt_f 1 (elevation (location self)) +:+ nl +:+
  "weather_data_file_units 1" +:+ nl.

(** One data line of a wea file:
    ["%d %d %.3f %d %d\n" % (dt.month, dt.day, dt.float_hour, dir_rad, dif_rad)] *)
Definition data_line (dir_rad dif_rad : Point) : string :=
  let dt := datetime dir_rad in
  fmt_d (month dt) +:+ " " +:+ fmt_d (day dt) +:+ " " +:+
  fmt_f 3 (float_hour dt) +:+ " " +:+ fmt_d (int_of (value dir_rad)) +:+ " " +:+
  fmt_d (int_of (value dif_rad)) +:+ nl.

(** The state of the loop of [write] over the requested hours: the lines so
    far, the local variable [dt] ([None] while it is not yet assigned) and what
    has been printed. *)
Record write_state := {
  lines : list string;
  dt : option DateTime;
  printed : list string;
}.

(** One turn of [for hoy in hoys: try: ... except IndexError: print(...); continue] *)
Definition write_hoy (self : Wea) (st : write_state) (hoy : Q) : result write_state :=
  match get_irradiance_values_for_hoy self hoy with
  | Raise IndexError =>
    match dt st with
    | None => Raise (UnboundLocalError "dt")
    | Some d =>
      OK {| lines := lines st; dt := dt st;
            printed := printed st ++
              ["Warn: Wea data for " +:+ DateTime_str d +:+ " is not available!"] |}
    end
  | Raise e => Raise e
  | OK (dir_rad, dif_rad) =>
    OK {| lines := lines st ++ [data_line dir_rad dif_rad];
          dt := Some (datetime dir_rad);
          printed := printed st |}
  end.

(** The lines of the file [write] is about to write. *)
Definition write_lines (self : Wea) (hoys : option (list Q)) : result write_state :=
  let st := {| lines := [header self]; dt := None; printed := [] |} in
  match hoys with
  | Some (h :: hs) => for_each (write_hoy self) (h :: hs) st
  | _ =>
    OK {| lines := lines st ++
            map (fun '(dir_rad, dif_rad) => data_line dir_rad dif_rad)
                (zip (data (direct_normal_irradiance self))
                     (data (diffuse_horizontal_irradiance self)));
          dt := (fun p => datetime (fst p)) <$>
                  last (zip (data (direct_normal_irradiance self))
                            (data (diffuse_horizontal_irradiance self)));
          printed := [] |}
  end.

(** [self.hoys], where an argument of the same name hides the property. *)
Definition self_hoys (self : Wea) : list Q := hoys self.

(** [Wea.write(self, file_path, hoys, write_hours)]: the path it returns and
    what it has printed. *)
Definition write (self : Wea) (file_path : string) (hoys : option (list Q))
    (write_hours : bool) : result (string * list string) :=
  let file_path :=
    if endswith (str_lower file_path) ".wea" then file_path
    else file_path +:+ ".wea" in
  let hoys' := match hoys with
               | Some (h :: hs) => h :: hs
               | _ => self_hoys self
               end in
  st ← write_lines self hoys;
  _ ← write_to_file file_path (String.concat EmptyString (lines st));
  _ ← (if write_hours
       then write_to_file (drop_last 4 file_path +:+ ".hrs")
                          (String.concat "," (map str_of hoys') +:+ nl)
       else OK tt);
  OK (file_path, printed st).

(** *** The derived quantities, over the real numbers *)

Local Abbreviation PointR := (DataPoint R DateTime).

(** [math.radians] *)
Definition radians (deg : R) : R := (deg * PI / 180)%R.

(** [a < b] on real numbers *)
Definition Rltb (a b : R) : bool := if Rlt_dec a b then true else false.

Definition irradiance_point (nickname : string) (v : R) (dt : DateTime) : PointR :=
  {| value := v; datetime := dt; standard := "SI"; nickname := nickname |}.

(** The [global_horizontal_irradiance] property *)
Definition global_horizontal_irradiance (self : Wea)
  : result (DataCollection Header R DateTime) :=
  analysis_period ← AnalysisPeriod_new (timestep self) (is_leap_year self);
  header_ghr ← Header_new analysis_period "Global Horizontal Irradiance" "W/m2"
                 (location self);
  let sp := Sunpath_set_is_leap_year (Sunpath_from_location (location self))
                                     (is_leap_year self) in
  OK {| coll_header := header_ghr;
        data :=
          map (fun '(dnr, dhr) =>
                 let sun := calculate_sun_from_date_time sp (datetime dnr) in
                 let glob_h :=
                   (Q2R (value dhr) +
                    Q2R (value dnr) * sin (radians (Q2R (altitude sun))))%R in
                 irradiance_point "Global Horizontal Irradiance" glob_h (datetime dnr))
              (zip (data (direct_normal_irradiance self))
                   (data (diffuse_horizontal_irradiance self))) |}.

(** The [direct_horizontal_irradiance] property *)
Definition direct_horizontal_irradiance (self : Wea)
  : result (DataCollection Header R DateTime) :=
  analysis_period ← AnalysisPeriod_new (timestep self) (is_leap_year self);
  header_dhr ← Header_new analysis_period "Direct Horizontal Irradiance" "W/m2"
                 (location self);
  let sp := Sunpath_set_is_leap_year (Sunpath_from_location (location self))
                                     (is_leap_year self) in
  OK {| coll_header := header_dhr;
        data :=
          map (fun dnr =>
                 let sun := calculate_sun_from_date_time sp (datetime dnr) in
                 let dir_h :=
                   (Q2R (value dnr) * sin (radians (Q2R (altitude sun))))%R in
                 irradiance_point "Direct Horizontal Irradiance" dir_h (datetime dnr))
              (data (direct_normal_irradiance self)) |}.

(** The text inputs [directional_irradiance] accepts for [ground_reflectance] *)
Definition albedos (name : string) : option Q :=
  if String.eqb name "urban" then Some 0.18%Q
  else if String.eqb name "grass" then Some 0.20%Q
  else if String.eqb name "fresh grass" then Some 0.26%Q
  else if String.eqb name "soil" then Some 0.17%Q
  else if String.eqb name "sand" then Some 0.40%Q
  else if String.eqb name "snow" then Some 0.65%Q
  else if String.eqb name "fresh snow" then Some 0.75%Q
  else if String.eqb name "asphalt" then Some 0.12%Q
  else if String.eqb name "concrete" then Some 0.30%Q
  else if String.eqb name "sea" then Some 0.06%Q
  else None.

(** [pol2cart(phi, theta)] of [directional_irradiance] *)
Definition pol2cart (phi theta : R) : euclid.Vector3 :=
  let mult := cos theta in
  {| euclid.x := (sin phi * mult)%R;
     euclid.y := (cos phi * mult)%R;
     euclid.z := sin theta |}.

(** The weight [y] of the anisotropic branch, as the code computes it. *)
Definition horizon_brightening (vec_angle : R) : R :=
  Rmax 0.45 (0.55 + (0.437 * cos vec_angle) +
             0.313 * cos vec_angle * 0.313 * cos vec_angle)%R.

(** [self.dhr]: a [Wea] has no attribute of that name. *)
Definition self_dhr (self : Wea) : result R := Raise (AttributeError "dhr").

(** One turn of the loop of [directional_irradiance]: the direct, diffuse and
    reflected irradiance on the surface at one timestep. *)
Definition surface_irradiance (self : Wea) (sp : Sunpath) (normal : euclid.Vector3)
    (srf_altitude ground_reflectance : R) (isotrophic : bool) (dnr dhr : Point)
  : result (R * R * R * DateTime) :=
  let dt := datetime dnr in
  let sun := calculate_sun_from_date_time sp dt in
  let sun_vec := pol2cart (radians (Q2R (azimuth sun)))
                          (radians (Q2R (altitude sun))) in
  let vec_angle := euclid.angle sun_vec normal in
  let srf_dir :=
    if positive (altitude sun) && Rltb vec_angle (PI / 2)
    then (Q2R (value dnr) * cos vec_angle)%R else 0%R in
  srf_dif ←
    (if isotrophic
     then OK (Q2R (value dhr) * ((sin (radians srf_altitude) / 2) + 0.5))%R
     else
       let y := horizon_brightening vec_angle in
       d ← self_dhr self;
       OK (d * (y * (sin (radians (Rabs (90 - srf_altitude)))) +
                cos (radians (Rabs (90 - srf_altitude)))))%R);
  let e_glob := (Q2R (value dhr) +
                 Q2R (value dnr) * cos (radians (90 - Q2R (altitude sun))))%R in
  let srf_ref := (e_glob * ground_reflectance *
                  (0.5 - (sin (radians srf_altitude) / 2)))%R in
  OK (srf_dir, srf_dif, srf_ref, dt).

(** [Wea.directional_irradiance(self, altitude, azimuth, ground_reflectance,
    isotrophic)]: the total, direct, diffuse and reflected series. *)
Definition directional_irradiance (self : Wea) (altitude azimuth : R)
    (ground_reflectance : string + R) (isotrophic : bool)
  : result (list PointR * list PointR * list PointR * list PointR) :=
  ground_reflectance ←
    match ground_reflectance with
    | inl name =>
      match albedos name with
      | Some a => OK (Q2R a)
      | None => q ← py_float name; OK (Q2R q)
      end
    | inr r => OK r
    end;
  let normal := pol2cart (radians azimuth) (radians altitude) in
  let sp := Sunpath_set_is_leap_year (Sunpath_from_location (location self))
                                     (is_leap_year self) in
  rows ← map_each (fun '(dnr, dhr) =>
                     surface_irradiance self sp normal altitude ground_reflectance
                                        isotrophic dnr dhr)
                  (zip (data (direct_normal_irradiance self))
                       (data (diffuse_horizontal_irradiance self)));
  OK (map (fun '(srf_dir, srf_dif, srf_ref, dt) =>
             irradiance_point "Irradiance" (srf_dir + srf_dif + srf_ref)%R dt) rows,
      map (fun '(srf_dir, _, _, dt) => irradiance_point "Irradiance" srf_dir dt) rows,
      map (fun '(_, srf_dif, _, dt) => irradiance_point "Irradiance" srf_dif dt) rows,
      map (fun '(_, _, srf_ref, dt) => irradiance_point "Irradiance" srf_ref dt) rows).


(** *** The vocabulary of the properties below *)

(** The length invariant of an engine. *)
Definition annual (w : Wea) : Prop :=
  timestep w <> 0 /\
  len (direct_normal_irradiance w) = timestep w * hr_count (is_leap_year w) /\
  len (diffuse_horizontal_irradiance w) = timestep w * hr_count (is_leap_year w).

(** The engines the construction paths return, and those obtained from them
    by assigning a series through a setter. *)
Inductive built : Wea -> Prop :=
| built_from_values loc dni dhi ts leap w :
    from_values loc dni dhi ts leap = OK w -> built w
| built_from_json data w :
    fst (from_json data) = OK w -> built w
| built_from_file weafile ts leap w :
    from_file weafile ts leap = OK w -> built w
| built_from_epw_file epwfile ts w :
    from_epw_file epwfile ts = OK w -> built w
| built_from_stat_file statfile ts leap w :
    from_stat_file statfile ts leap = OK w -> built w
| built_from_ashrae_revised_clear_sky loc tau_b tau_d ts leap w :
    from_ashrae_revised_clear_sky loc tau_b tau_d ts leap = OK w -> built w
| built_from_ashrae_clear_sky loc sky_clearness ts leap w :
    from_ashrae_clear_sky loc sky_clearness ts leap = OK w -> built w
| built_from_zhang_huang_solar loc cc rh dbt ws ap ts leap use_disc w :
    from_zhang_huang_solar loc cc rh dbt ws ap ts leap use_disc = OK w -> built w
| built_set_direct_normal w data w' :
    built w -> set_direct_normal_irradiance w data = OK w' -> built w'
| built_set_diffuse_horizontal w data w' :
    built w -> set_diffuse_horizontal_irradiance w data = OK w' -> built w'.


(** The sun path the derived quantities of an engine consult. *)
Definition sunpath_of (self : Wea) : Sunpath :=
  Sunpath_set_is_leap_year (Sunpath_from_location (location self)) (is_leap_year self).

Local Open Scope R_scope.

(** One turn of the loop of [directional_irradiance] under an isotropic sky,
    where it cannot raise. *)
Definition isotropic_row (sp : Sunpath) (normal : euclid.Vector3)
    (srf_altitude ground_reflectance : R) (v : Point * Point) : R * R * R * DateTime :=
  let sun := calculate_sun_from_date_time sp (datetime (fst v)) in
  let vec_angle :=
    euclid.angle (pol2cart (radians (Q2R (azimuth sun))) (radians (Q2R (altitude sun))))
                 normal in
  (if positive (altitude sun) && Rltb vec_angle (PI / 2)
   then Q2R (value (fst v)) * cos vec_angle else 0,
   Q2R (value (snd v)) * ((sin (radians srf_altitude) / 2) + 0.5),
   (Q2R (value (snd v)) +
    Q2R (value (fst v)) * cos (radians (90 - Q2R (altitude sun)))) *
   ground_reflectance * (0.5 - (sin (radians srf_altitude) / 2)),
   datetime (fst v)).

Local Close Scope R_scope.

(** The path [write] writes to: the given one, with [.wea] appended unless
    it ends in it already. *)
Definition wea_path (file_path : string) : string :=
  if endswith (str_lower file_path) ".wea" then file_path else file_path +:+ ".wea".

(** The line [write] puts out for a requested hour, when the hour has a
    sample. *)
Definition line_for_hoy (self : Wea) (hoy : Q) : option string :=
  match get_irradiance_values_for_hoy self hoy with
  | OK (dir_rad, dif_rad) => Some (data_line dir_rad dif_rad)
  | Raise _ => None
  end.

(** The warnings [write] prints for the requested hours that follow an hour
    written with datetime [last]: one for each hour without a sample, naming
    the datetime of the last hour written before it. *)
Fixpoint warnings (self : Wea) (last : DateTime) (hoys : list Q) : list string :=
  match hoys with
  | [] => []
  | hoy :: rest =>
    match get_irradiance_values_for_hoy self hoy with
    | OK (dir_rad, _) => warnings self (datetime dir_rad) rest
    | Raise _ =>
      ("Warn: Wea data for " +:+ DateTime_str last +:+ " is not available!")
        :: warnings self last rest
    end
  end.

End Wea.
End wea.

(** ** A small world of collaborators

    A concrete instance of [wea.Collaborators], used to run the model: a
    datetime is its minute of the year, the sun stands at the zenith from 06:00
    to 18:00 and at the nadir otherwise, and the weather file holds 8760 hourly
    samples. *)
Module demo.
Import wea.

Definition minute_of_day (d : Q) : Z := Qfloor d mod 1440.

Definition sun_at (d : Q) : Sun Q :=
  {| altitude := if (360 <=? minute_of_day d) && (minute_of_day d <? 1080)
                 then 90%Q else (-90)%Q;
     azimuth := 180%Q;
     sun_datetime := d |}.

Definition point_to_json (p : DataPoint Q Q) : json :=
  JList [JFloat (value p); JFloat (datetime p); JStr (standard p); JStr (nickname p)].

Definition point_from_json (v : json) : result (DataPoint Q Q) :=
  match v with
  | JList [JFloat v; JFloat d; JStr s; JStr n] =>
    OK {| value := v; datetime := d; standard := s; nickname := n |}
  | _ => Raise (ValueError "data point")
  end.

Definition collection_to_json (c : DataCollection string Q Q) : json :=
  JDict [("header"%string, JStr (coll_header c));
         ("data"%string, JList (map point_to_json (data c)))].

Definition collection_from_json (v : json) : result (DataCollection string Q Q) :=
  match v with
  | JDict [(_, JStr h); (_, JList ps)] =>
    ps ← map_each point_from_json ps;
    OK {| coll_header := h; data := ps |}
  | _ => Raise (ValueError "data collection")
  end.

Definition location_to_json (l : Location) : json :=
  JList [JStr (city l); JFloat (latitude l); JFloat (longitude l);
         JFloat (time_zone l); JFloat (elevation l)].

Definition location_from_json (v : json) : result Location :=
  match v with
  | JList [JStr c; JFloat la; JFloat lo; JFloat tz; JFloat el] =>
    OK {| city := c; latitude := la; longitude := lo; time_zone := tz;
          elevation := el |}
  | _ => Raise (ValueError "location")
  end.

Definition chicago : Location :=
  {| city := "Chicago Ohare Intl Ap"; latitude := 41.98%Q; longitude := (-87.92)%Q;
     time_zone := (-6)%Q; elevation := 201%Q |}.

(** An hourly series with the same value at every hour of a 8760 hour year. *)
Definition hourly (name : string) (v : Q) : DataCollection string Q Q :=
  {| coll_header := name;
     data := map (fun h => {| value := v; datetime := (60 * inject_Z h)%Q;
                              standard := "SI"; nickname := name |})
                 (seqZ 0 8760) |}.

(** Each sample repeated [timestep] times, at [60 / timestep] minute steps. *)
Definition interpolated (c : DataCollection string Q Q) (timestep : Z)
  : list (DataPoint Q Q) :=
  flat_map (fun p =>
              map (fun k => {| value := value p;
                               datetime := (datetime p +
                                            60 * inject_Z k / inject_Z timestep)%Q;
                               standard := standard p;
                               nickname := nickname p |})
                  (seqZ 0 timestep))
           (data c).

Definition interpolate (c : DataCollection string Q Q) (timestep : Z)
  : result (list (DataPoint Q Q)) :=
  OK (interpolated c timestep).

Definition clear_sky (altitudes : list Q) : result (list Q * list Q) :=
  OK (map (fun a => if positive a then 800%Q else 0%Q) altitudes,
      map (fun a => if positive a then 100%Q else 0%Q) altitudes).

#[export] Instance world : Collaborators := {|
  DateTime := Q;
  AnalysisPeriod := Z * json;
  Header := string;
  Sunpath := unit;
  Location_to_json := location_to_json;
  Location_from_json := location_from_json;
  from_moy := fun moy _ => moy;
  add_minute := fun d m => (d + inject_Z m)%Q;
  hoy := fun d => (d / 60)%Q;
  month := fun d => Z.min 12 (Qfloor d / 43200 + 1);
  day := fun d => (Qfloor d / 1440) mod 30 + 1;
  float_hour := fun d => (inject_Z (minute_of_day d) / 60)%Q;
  doy := fun d => Qfloor d / 1440 + 1;
  AnalysisPeriod_new := fun timestep is_leap_year => OK (timestep, is_leap_year);
  Header_set_data_type_and_unit := fun _ data_type _ => OK data_type;
  interpolate_data := interpolate;
  DataCollection_to_json := collection_to_json;
  DataCollection_from_json := collection_from_json;
  Sunpath_from_location := fun _ => tt;
  Sunpath_set_is_leap_year := fun sp _ => sp;
  calculate_sun_from_date_time := fun _ d => sun_at d;
  EPW_new := fun _ =>
    OK {| epw_location := chicago;
          direct_normal_radiation := hourly "Direct Normal Radiation" 100;
          diffuse_horizontal_radiation := hourly "Diffuse Horizontal Radiation" 50 |};
  STAT_new := fun _ =>
    OK {| stat_location := chicago;
          monthly_tau_beam := replicate 12 (Some 0.3%Q);
          monthly_tau_diffuse := replicate 12 (Some 2.5%Q) |};
  ashrae_revised_clear_sky := fun altitudes _ _ => clear_sky altitudes;
  ashrae_clear_sky := fun altitudes _ _ => clear_sky altitudes;
  zhang_huang_solar_split := fun altitudes _ _ _ _ _ _ _ _ => clear_sky altitudes;
  write_to_file := fun _ _ => OK tt;
  file_lines := fun _ => None;
  str_split := fun s => [s];
  py_float := fun s => Raise (ValueError s);
  py_int := fun s => Raise (ValueError s);
  str_lower := fun s => s;
  fmt_f := fun _ q => fmt_d (Qfloor q);
  str_of := fun q => fmt_d (Qfloor q);
  DateTime_str := fun d => fmt_d (Qfloor d);
|}.

(** The collaborators of [header.py]: a data type is its name. *)
#[export] Instance header_world : header.Collaborators := {|
  header.DataType := string;
  header.AnalysisPeriod := json;
  header.type_by_name_and_unit := fun name _ =>
    match name with
    | JStr s => OK s
    | _ => Raise (ValueError "data type")
    end;
  header.is_unit_acceptable := fun _ _ => OK true;
  header.AnalysisPeriod_from_json := fun v => OK v;
  header.from_analysis_period := fun ap => OK ap;
|}.

(** A dict with the required keys of an engine and none of the optional keys
    of an engine or of a header. *)
Definition sparse_data : gmap string json :=
  {[ "location"%string := JNone;
     "direct_normal_irradiance"%string := JNone;
     "diffuse_horizontal_irradiance"%string := JNone ]}.

(** The 8760 hourly temperatures 0, 1, ..., 8759. *)
Definition hour_numbers : list Q := map inject_Z (seqZ 0 8760).

End demo.

(** * Properties *)

(** Destructs the calls a failing or succeeding call in [H] went through. *)
Ltac inv_result H :=
  repeat (unfold mbind, result_bind, mret, result_ret, assert in H;
          cbn beta iota in H;
          match type of H with
          | match ?e with _ => _ end = _ => destruct e eqn:?; try discriminate H
          | fst (match ?e with _ => _ end) = _ => destruct e eqn:?; try discriminate H
          end).

(** ** Loops and indexing of the Python runtime *)
Section runtime_facts.



Lemma map_each_pure {A B : Type} (f : A -> result B) (g : A -> B) (l : list A) :
  (forall x, f x = OK (g x)) -> map_each f l = OK (map g l).
Proof.
  intros Hf. induction l as [|a l IH]; cbn; [reflexivity |].
  rewrite Hf, IH. reflexivity.
Qed.

(** An index in [-len, len) reads the element it names, counting from the end
    when it is negative. *)
Lemma getitem_in_range {A : Type} (l : list A) (i : Z) :
  - Z.of_nat (length l) <= i < Z.of_nat (length l) ->
  exists x, getitem l i = OK x /\
            l !! Z.to_nat (if i <? 0 then i + Z.of_nat (length l) else i) = Some x.
Proof.
  intros Hi. unfold getitem, index.
  set (j := if i <? 0 then i + Z.of_nat (length l) else i).
  assert (Hj : 0 <= j < Z.of_nat (length l)).
  { subst j. destruct (i <? 0) eqn:E; [apply Z.ltb_lt in E | apply Z.ltb_ge in E]; lia. }
  assert (Hb : ((j <? 0) || (Z.of_nat (length l) <=? j)) = false).
  { apply orb_false_iff. split; [apply Z.ltb_ge | apply Z.leb_gt]; lia. }
  rewrite Hb. cbn.
  destruct (l !! Z.to_nat j) as [x|] eqn:Hx.
  - exists x. split; reflexivity.
  - apply lookup_ge_None in Hx. lia.
Qed.

Lemma getitem_out_of_range {A : Type} (l : list A) (i : Z) :
  Z.of_nat (length l) <= i -> getitem l i = Raise IndexError.
Proof.
  intros Hi. unfold getitem, index.
  assert (E : (i <? 0) = false) by (apply Z.ltb_ge; lia). rewrite E.
  assert (Hb : ((i <? 0) || (Z.of_nat (length l) <=? i)) = true).
  { apply orb_true_iff. right. apply Z.leb_le. lia. }
  rewrite Hb. reflexivity.
Qed.


End runtime_facts.

(** ** Dicts that [from_json] fills in *)
Section dict_facts.

Lemma contains_spec (data : gmap string json) (key : string) :
  dict.contains data key = true <-> is_Some (data !! key).
Proof. unfold dict.contains. apply bool_decide_eq_true. Qed.

Lemma contains_false (data : gmap string json) (key : string) :
  dict.contains data key = false <-> data !! key = None.
Proof.
  unfold dict.contains. rewrite bool_decide_eq_false.
  rewrite <- eq_None_not_Some. reflexivity.
Qed.

(** Every key keeps the value it had; a listed key that had none is [None]. *)
Lemma set_missing_to_None_lookup (keys : list string) (data : gmap string json)
    (key : string) :
  dict.set_missing_to_None keys data !! key =
  match data !! key with
  | Some v => Some v
  | None => if bool_decide (key ∈ keys) then Some JNone else None
  end.
Proof.
  unfold dict.set_missing_to_None.
  revert data. induction keys as [|k keys IH]; intros data; cbn [foldl].
  - destruct (data !! key); [reflexivity |].
    case_bool_decide as Hin; [by apply not_elem_of_nil in Hin | reflexivity].
  - rewrite IH. destruct (dict.contains data k) eqn:Hk.
    + apply contains_spec in Hk. destruct (data !! key) eqn:Hkey; [reflexivity |].
      assert (Hne : key <> k) by (intros ->; destruct Hk; congruence).
      rewrite (bool_decide_ext (key ∈ keys) (key ∈ k :: keys)); [reflexivity |].
      rewrite elem_of_cons. tauto.
    + apply contains_false in Hk.
      destruct (decide (key = k)) as [->|Hne].
      * rewrite lookup_insert_eq, Hk.
        rewrite bool_decide_eq_true_2; [reflexivity |]. apply elem_of_cons. by left.
      * rewrite lookup_insert_ne by congruence.
        destruct (data !! key); [reflexivity |].
        rewrite (bool_decide_ext (key ∈ keys) (key ∈ k :: keys)); [reflexivity |].
        rewrite elem_of_cons. tauto.
Qed.

(** The loop over the required keys passes when all of them are present. *)
Lemma required_keys_present `{wea.Collaborators} (data : gmap string json)
    (keys : list string) :
  (forall k, k ∈ keys -> is_Some (data !! k)) ->
  for_each (fun (_ : unit) key =>
              assert (dict.contains data key)
                     ("Required key " +:+ dquote +:+ key +:+ dquote +:+
                      " is missing!")) keys tt = OK tt.
Proof.
  induction keys as [|k keys IH]; intros Hall; simpl; [reflexivity |].
  assert (Hk : dict.contains data k = true).
  { apply contains_spec, Hall, elem_of_cons. by left. }
  rewrite Hk. simpl. apply IH. intros k' Hin. apply Hall, elem_of_cons. by right.
Qed.

(** The dict [Wea.from_json] leaves behind when the required keys are there. *)
Lemma wea_from_json_dict `{wea.Collaborators} (data : gmap string json) :
  (forall k, k ∈ wea.required_keys -> is_Some (data !! k)) ->
  snd (wea.from_json data) = dict.set_missing_to_None wea.optional_keys data.
Proof.
  intros Hreq. unfold wea.from_json.
  rewrite (required_keys_present data wea.required_keys Hreq). reflexivity.
Qed.

End dict_facts.

(** ** Building an engine *)
Section engine_facts.
Import wea.
Context `{Collaborators}.

Local Abbreviation Point := (DataPoint Q DateTime).
Local Abbreviation Collection := (DataCollection Header Q DateTime).

Lemma true_div_eq (a b c : Z) :
  b <> 0 -> (inject_Z a / inject_Z b == inject_Z c)%Q <-> a = b * c.
Proof.
  intros Hb.
  assert (Hb' : ~ (inject_Z b == 0)%Q).
  { intros Hz. apply Hb. apply inject_Z_injective. exact Hz. }
  split.
  - intros Hq. apply inject_Z_injective. rewrite inject_Z_mult, <- Hq.
    symmetry. apply Qmult_div_r. exact Hb'.
  - intros ->. rewrite inject_Z_mult, Qmult_comm. apply Qdiv_mult_l. exact Hb'.
Qed.

(** The assertion of the setters holds exactly for a nonzero timestep and a
    series of [timestep * hr_count(is_leap_year)] samples. *)
Lemma assert_annual_OK (name : string) (ts : Z) (leap : json) (c : Collection) :
  assert_annual name ts leap c = OK tt <-> ts <> 0 /\ len c = ts * hr_count leap.
Proof.
  unfold assert_annual, true_div.
  destruct (ts =? 0) eqn:Hts.
  - apply Z.eqb_eq in Hts. split; [discriminate | intros [? _]; contradiction].
  - apply Z.eqb_neq in Hts. cbn.
    destruct (Qeq_bool _ _) eqn:Hq; cbn.
    + apply Qeq_bool_iff in Hq. apply (true_div_eq _ _ _ Hts) in Hq. tauto.
    + split; [discriminate |]. intros [_ Hlen].
      apply (true_div_eq _ _ _ Hts), Qeq_bool_iff in Hlen. congruence.
Qed.

Lemma assert_annual_fails (name : string) (ts : Z) (leap : json) (c : Collection) :
  ts <> 0 -> len c <> ts * hr_count leap ->
  assert_annual name ts leap c =
  Raise (AssertionError (name +:+ " data must be annual.")).
Proof.
  intros Hts Hlen. unfold assert_annual, true_div.
  apply Z.eqb_neq in Hts as Hts'. rewrite Hts'. cbn.
  destruct (Qeq_bool _ _) eqn:Hq; [| reflexivity].
  apply Qeq_bool_iff in Hq. apply (true_div_eq _ _ _ Hts) in Hq. contradiction.
Qed.

Lemma hr_count_pos (leap : json) : 8760 <= hr_count leap.
Proof. unfold hr_count. destruct (truthy leap); lia. Qed.


Lemma init_annual loc (dnr dhr : Collection) (ts leap : json) (w : Wea) :
  __init__ loc dnr dhr ts leap = OK w -> annual w.
Proof.
  unfold __init__. intros Hw.
  destruct (as_int _) as [z|]; [| discriminate].
  destruct (assert_annual _ z leap dnr) as [[]|] eqn:H1; [| discriminate].
  destruct (assert_annual _ z leap dhr) as [[]|] eqn:H2; [| discriminate].
  apply assert_annual_OK in H1 as [Hz H1], H2 as [_ H2].
  cbn in Hw. injection Hw as <-. repeat split; assumption.
Qed.

Lemma init_fields loc (dnr dhr : Collection) (ts : Z) (leap : json) (w : Wea) :
  __init__ loc dnr dhr (JInt ts) leap = OK w ->
  location w = loc /\ direct_normal_irradiance w = dnr /\
  diffuse_horizontal_irradiance w = dhr /\
  timestep w = (if ts =? 0 then 1 else ts) /\ is_leap_year w = leap.
Proof.
  unfold __init__. intros Hw.
  assert (Hts : as_int (if truthy (JInt ts) then JInt ts else JInt 1)
                = Some (if ts =? 0 then 1 else ts)).
  { cbn. destruct (ts =? 0); reflexivity. }
  rewrite Hts in Hw. inv_result Hw. injection Hw as <-. repeat split.
Qed.

(** [_get_empty_data_collections] never returns: its first [Header] call
    raises, unless the analysis period has failed before. *)
Lemma get_empty_data_collections_raises loc ts leap :
  exists e, _get_empty_data_collections loc ts leap = Raise e.
Proof.
  unfold _get_empty_data_collections, Header_new.
  destruct (AnalysisPeriod_new ts (JBool leap)); cbn; eauto.
Qed.

Lemma get_empty_data_collections_TypeError loc ts leap ap :
  AnalysisPeriod_new ts (JBool leap) = OK ap ->
  _get_empty_data_collections loc ts leap =
  Raise (TypeError "__init__() got an unexpected keyword argument 'location'").
Proof.
  intros Hap. unfold _get_empty_data_collections, Header_new. rewrite Hap. reflexivity.
Qed.

(** Every construction path ends in the constructor. *)
Lemma from_values_init loc dni dhi ts leap w :
  from_values loc dni dhi ts leap = OK w ->
  exists dnr dhr, __init__ loc dnr dhr (JInt ts) (JBool leap) = OK w.
Proof. unfold from_values. intros Hw. inv_result Hw. eauto. Qed.

Lemma from_json_init data w :
  fst (from_json data) = OK w ->
  exists loc dnr dhr ts leap, __init__ loc dnr dhr ts leap = OK w.
Proof. unfold from_json. intros Hw. inv_result Hw. cbn in Hw. inv_result Hw. eauto 6. Qed.

Lemma from_file_init weafile ts leap w :
  from_file weafile ts leap = OK w ->
  exists loc dnr dhr, __init__ loc dnr dhr (JInt ts) (JBool leap) = OK w.
Proof.
  unfold from_file. intros Hw. inv_result Hw.
  apply from_values_init in Hw as (dnr & dhr & Hw). eauto.
Qed.

Lemma from_epw_file_init epwfile ts w :
  from_epw_file epwfile ts = OK w ->
  exists loc dnr dhr, __init__ loc dnr dhr (JInt ts) (JBool false) = OK w.
Proof. unfold from_epw_file. intros Hw. inv_result Hw; eauto. Qed.

Lemma from_ashrae_revised_clear_sky_init loc tau_b tau_d ts leap w :
  from_ashrae_revised_clear_sky loc tau_b tau_d ts leap = OK w ->
  exists dnr dhr, __init__ loc dnr dhr (JInt ts) (JBool leap) = OK w.
Proof. unfold from_ashrae_revised_clear_sky. intros Hw. inv_result Hw. eauto. Qed.

Lemma from_stat_file_init statfile ts leap w :
  from_stat_file statfile ts leap = OK w ->
  exists loc dnr dhr, __init__ loc dnr dhr (JInt ts) (JBool leap) = OK w.
Proof.
  unfold from_stat_file. intros Hw. inv_result Hw.
  apply from_ashrae_revised_clear_sky_init in Hw as (dnr & dhr & Hw). eauto.
Qed.

Lemma from_ashrae_clear_sky_init loc sky_clearness ts leap w :
  from_ashrae_clear_sky loc sky_clearness ts leap = OK w ->
  exists dnr dhr, __init__ loc dnr dhr (JInt ts) (JBool leap) = OK w.
Proof. unfold from_ashrae_clear_sky. intros Hw. inv_result Hw. eauto. Qed.

Lemma from_zhang_huang_solar_init loc cc rh dbt ws ap ts leap use_disc w :
  from_zhang_huang_solar loc cc rh dbt ws ap ts leap use_disc = OK w ->
  exists dnr dhr, __init__ loc dnr dhr (JInt ts) (JBool leap) = OK w.
Proof. unfold from_zhang_huang_solar. intros Hw. inv_result Hw; eauto. Qed.

Lemma built_annual (w : Wea) : built w -> annual w.
Proof.
  induction 1 as [? ? ? ? ? ? Hw | ? ? Hw | ? ? ? ? Hw | ? ? ? Hw | ? ? ? ? Hw
                 | ? ? ? ? ? ? Hw | ? ? ? ? ? Hw | ? ? ? ? ? ? ? ? ? ? Hw
                 | w data w' _ IH Hw | w data w' _ IH Hw].
  - apply from_values_init in Hw as (? & ? & Hw). eapply init_annual, Hw.
  - apply from_json_init in Hw as (? & ? & ? & ? & ? & Hw). eapply init_annual, Hw.
  - apply from_file_init in Hw as (? & ? & ? & Hw). eapply init_annual, Hw.
  - apply from_epw_file_init in Hw as (? & ? & ? & Hw). eapply init_annual, Hw.
  - apply from_stat_file_init in Hw as (? & ? & ? & Hw). eapply init_annual, Hw.
  - apply from_ashrae_revised_clear_sky_init in Hw as (? & ? & Hw).
    eapply init_annual, Hw.
  - apply from_ashrae_clear_sky_init in Hw as (? & ? & Hw). eapply init_annual, Hw.
  - apply from_zhang_huang_solar_init in Hw as (? & ? & Hw). eapply init_annual, Hw.
  - unfold set_direct_normal_irradiance in Hw.
    destruct (assert_annual _ _ _ data) as [[]|] eqn:Ha; [| discriminate].
    apply assert_annual_OK in Ha as [_ Ha]. cbn in Hw. injection Hw as <-.
    destruct IH as (Hts & _ & Hdif). repeat split; assumption.
  - unfold set_diffuse_horizontal_irradiance in Hw.
    destruct (assert_annual _ _ _ data) as [[]|] eqn:Ha; [| discriminate].
    apply assert_annual_OK in Ha as [_ Ha]. cbn in Hw. injection Hw as <-.
    destruct IH as (Hts & Hdir & _). repeat split; assumption.
Qed.

(** The constructor accepts two series of the annual length. *)
Lemma init_OK loc (d1 d2 : Collection) (ts leap : json) (z : Z) :
  as_int (if truthy ts then ts else JInt 1) = Some z ->
  z <> 0 ->
  len d1 = z * hr_count leap ->
  len d2 = z * hr_count leap ->
  __init__ loc d1 d2 ts leap =
  OK {| location := loc; _direct_normal_irradiance := d1;
        _diffuse_horizontal_irradiance := d2; _timestep := z;
        _is_leap_year := leap |}.
Proof.
  intros Hz Hne L1 L2. unfold __init__. rewrite Hz.
  rewrite !(proj2 (assert_annual_OK _ _ _ _)) by (split; assumption).
  reflexivity.
Qed.

(** [from_epw_file] with timestep 1 returns an engine when the weather file
    holds 8760 samples in each series. *)
Lemma from_epw_file_hourly_OK (epwfile : string) (epw : EPW Header DateTime)
    (h1 h2 : Header) :
  EPW_new epwfile = OK epw ->
  Header_set_data_type_and_unit (coll_header (direct_normal_radiation epw))
    "Direct Normal Irradiance" "W/m2" = OK h1 ->
  Header_set_data_type_and_unit (coll_header (diffuse_horizontal_radiation epw))
    "Diffuse Horizontal Irradiance" "W/m2" = OK h2 ->
  len (direct_normal_radiation epw) = 8760 ->
  len (diffuse_horizontal_radiation epw) = 8760 ->
  from_epw_file epwfile 1 =
  OK {| location := epw_location epw;
        _direct_normal_irradiance :=
          shift_30 {| coll_header := h1; data := data (direct_normal_radiation epw) |};
        _diffuse_horizontal_irradiance :=
          shift_30 {| coll_header := h2;
                      data := data (diffuse_horizontal_radiation epw) |};
        _timestep := 1;
        _is_leap_year := JBool false |}.
Proof.
  intros Hepw Hh1 Hh2 L1 L2. unfold from_epw_file.
  rewrite Hepw. cbn. rewrite Hh1. cbn. rewrite Hh2. cbn.
  apply (init_OK _ _ _ (JInt 1) (JBool false) 1 eq_refl); [lia | |];
    unfold len, shift_30 in *; cbn [data]; rewrite length_map; assumption.
Qed.

End engine_facts.

(** ** The demonstration world *)

(** The sizes of the demonstration weather file. *)
Lemma hourly_length (name : string) (v : Q) :
  length (wea.data (demo.hourly name v)) = Z.to_nat 8760.
Proof. unfold demo.hourly. cbn [wea.data]. rewrite length_map, length_seqZ. reflexivity. Qed.

Lemma hourly_len (name : string) (v : Q) :
  wea.len (H := demo.world) (demo.hourly name v) = 8760.
Proof. unfold wea.len. rewrite hourly_length. lia. Qed.

(** The engine used below, read from the hourly weather file of the
    demonstration world: 100 W/m2 of direct normal and 50 W/m2 of diffuse
    horizontal irradiance at every hour of the year, stamped at the half
    hour. *)
Lemma epw_engine :
  wea.from_epw_file (H := demo.world) "chicago.epw" 1 =
  OK {| wea.location := demo.chicago;
        wea._direct_normal_irradiance :=
          wea.shift_30 (H := demo.world)
            {| wea.coll_header := "Direct Normal Irradiance"%string;
               wea.data := wea.data (demo.hourly "Direct Normal Radiation" 100) |};
        wea._diffuse_horizontal_irradiance :=
          wea.shift_30 (H := demo.world)
            {| wea.coll_header := "Diffuse Horizontal Irradiance"%string;
               wea.data := wea.data (demo.hourly "Diffuse Horizontal Radiation" 50) |};
        wea._timestep := 1;
        wea._is_leap_year := JBool false |}.
Proof.
  exact (from_epw_file_hourly_OK (H := demo.world) "chicago.epw" _
           "Direct Normal Irradiance" "Diffuse Horizontal Irradiance"
           eq_refl eq_refl eq_refl (hourly_len _ _) (hourly_len _ _)).
Qed.

(** In the demonstration world a location and a series are read back from
    their representation as they were. *)
Lemma demo_location_round_trip (l : wea.Location) :
  demo.location_from_json (demo.location_to_json l) = OK l.
Proof. destruct l. reflexivity. Qed.

Lemma demo_collection_round_trip (c : wea.DataCollection string Q Q) :
  demo.collection_from_json (demo.collection_to_json c) = OK c.
Proof.
  destruct c as [h ps]. unfold demo.collection_to_json, demo.collection_from_json.
  cbn [wea.coll_header wea.data].
  assert (Hps : map_each demo.point_from_json (map demo.point_to_json ps) = OK ps).
  { induction ps as [|[v d s n] ps IH]; cbn; [reflexivity |]. rewrite IH. reflexivity. }
  rewrite Hps. reflexivity.
Qed.

(** ** The annual length of the two series (C1) *)
Section annual_length.
Import wea.
Context `{Collaborators}.

Local Abbreviation Collection := (DataCollection Header Q DateTime).

(** C1: in every engine a construction path returns, and after every
    assignment through a setter, each of the two series has exactly
    [timestep * hr_count(is_leap_year)] samples, where [hr_count] is 8760 or,
    for a leap year, 8784; assigning a series of another length fails. *)
Theorem annual_length_invariant (w : Wea) :
  built w ->
  (hr_count (is_leap_year w) = if truthy (is_leap_year w) then 8784 else 8760) /\
  len (direct_normal_irradiance w) = timestep w * hr_count (is_leap_year w) /\
  len (diffuse_horizontal_irradiance w) = timestep w * hr_count (is_leap_year w) /\
  forall data : Collection,
    len data <> timestep w * hr_count (is_leap_year w) ->
    (exists msg, set_direct_normal_irradiance w data = Raise (AssertionError msg)) /\
    (exists msg, set_diffuse_horizontal_irradiance w data = Raise (AssertionError msg)).
Proof.
  intros Hw. destruct (built_annual w Hw) as (Hts & Hdir & Hdif).
  split; [reflexivity |]. split; [exact Hdir |]. split; [exact Hdif |].
  intros data Hlen.
  unfold set_direct_normal_irradiance, set_diffuse_horizontal_irradiance.
  split; eexists; rewrite assert_annual_fails by assumption; reflexivity.
Qed.

End annual_length.

(** An engine the theorem applies to: the one read from the hourly weather
    file of the demonstration world. *)
Lemma annual_length_invariant_witness :
  exists w,
    wea.from_epw_file (H := demo.world) "chicago.epw" 1 = OK w /\
    wea.len (wea.direct_normal_irradiance w) = 1 * 8760 /\
    wea.len (wea.diffuse_horizontal_irradiance w) = 1 * 8760.
Proof.
  pose proof epw_engine as Hw.
  eexists. split; [exact Hw |].
  destruct (annual_length_invariant _ (wea.built_from_epw_file _ _ _ Hw))
    as (_ & Hdir & Hdif & _).
  split; [exact Hdir | exact Hdif].
Defined.

(** ** Interpolated weather file values when the sun is down (C2) *)
Section sun_down.
Import wea.
Context `{Collaborators}.

Local Abbreviation Point := (DataPoint Q DateTime).

(** C2 fails on the code: for a timestep other than 1, so for every timestep
    greater than 1, [from_epw_file] returns no engine.  After interpolating the
    two series it calls [_get_empty_data_collections], whose
    [Header(..., location=...)] call raises TypeError, so the loop that stores
    0 for the samples with the sun down is never reached; when the weather
    file, its headers, the interpolation and the analysis period deliver, the
    call ends in that TypeError. *)
Theorem interpolated_weather_file_never_returns (epwfile : string) (timestep : Z) :
  timestep <> 1 ->
  (exists e, from_epw_file epwfile timestep = Raise e) /\
  (forall (epw : EPW Header DateTime) (h1 h2 : Header) (vs1 vs2 : list Point)
          (ap : AnalysisPeriod),
     EPW_new epwfile = OK epw ->
     Header_set_data_type_and_unit (coll_header (direct_normal_radiation epw))
       "Direct Normal Irradiance" "W/m2" = OK h1 ->
     Header_set_data_type_and_unit (coll_header (diffuse_horizontal_radiation epw))
       "Diffuse Horizontal Irradiance" "W/m2" = OK h2 ->
     interpolate_data
       {| coll_header := h1; data := data (direct_normal_radiation epw) |}
       timestep = OK vs1 ->
     interpolate_data
       {| coll_header := h2; data := data (diffuse_horizontal_radiation epw) |}
       timestep = OK vs2 ->
     AnalysisPeriod_new timestep (JBool false) = OK ap ->
     from_epw_file epwfile timestep =
     Raise (TypeError "__init__() got an unexpected keyword argument 'location'")).
Proof.
  intros Hts. apply Z.eqb_neq in Hts. split.
  - unfold from_epw_file. rewrite Hts. cbn [negb].
    destruct (EPW_new epwfile) as [epw|]; cbn [mbind result_bind]; [| eauto].
    destruct (Header_set_data_type_and_unit
                (coll_header (direct_normal_radiation epw)) _ _) as [h1|];
      cbn [mbind result_bind]; [| eauto].
    destruct (Header_set_data_type_and_unit
                (coll_header (diffuse_horizontal_radiation epw)) _ _) as [h2|];
      cbn [mbind result_bind]; [| eauto].
    destruct (interpolate_data {| coll_header := h1; data := _ |} timestep) as [vs1|];
      cbn [mbind result_bind]; [| eauto].
    destruct (interpolate_data {| coll_header := h2; data := _ |} timestep) as [vs2|];
      cbn [mbind result_bind]; [| eauto].
    destruct (get_empty_data_collections_raises (epw_location epw) timestep false)
      as [e ->].
    cbn [mbind result_bind]. eauto.
  - intros epw h1 h2 vs1 vs2 ap Hepw Hh1 Hh2 Hv1 Hv2 Hap.
    unfold from_epw_file. rewrite Hts. cbn [negb].
    rewrite Hepw. cbn [mbind result_bind]. rewrite Hh1. cbn [mbind result_bind].
    rewrite Hh2. cbn [mbind result_bind]. rewrite Hv1. cbn [mbind result_bind].
    rewrite Hv2. cbn [mbind result_bind].
    rewrite (get_empty_data_collections_TypeError _ _ _ ap Hap). reflexivity.
Qed.

End sun_down.

(** The hourly weather file of the demonstration world, read at two steps per
    hour. *)
Lemma interpolated_weather_file_never_returns_witness :
  wea.from_epw_file (H := demo.world) "chicago.epw" 2 =
  Raise (TypeError "__init__() got an unexpected keyword argument 'location'").
Proof.
  destruct (interpolated_weather_file_never_returns (H := demo.world) "chicago.epw" 2
              ltac:(lia)) as [_ Hraise].
  exact (Hraise _ _ _ _ _ _ eq_refl eq_refl eq_refl eq_refl eq_refl eq_refl).
Defined.

(** ** The dry bulb temperature of three hours earlier (C3) *)
Section three_hours_earlier.
Import wea.
Context `{Collaborators}.



End three_hours_earlier.



(** ** Raw values of the wrong length (C4) *)
Section from_values_errors.
Import wea.
Context `{Collaborators}.

(** C4, as amended: for a nonzero timestep, [from_values] fails with an
    assertion error whenever one of the two sequences does not have
    [timestep * hr_count(is_leap_year)] values.  The message states the
    timestep and the expected count, and it ends with the hint exactly when the
    number of direct normal values is a multiple of [hr_count(is_leap_year)];
    the hint names the quotient, which is the timestep that number of values
    is annual for. *)
Theorem from_values_wrong_length (loc : Location) (dni dhi : list Q) (ts : Z)
    (leap : bool) :
  let hr := hr_count (JBool leap) in
  let n_dir := Z.of_nat (length dni) in
  let n_dif := Z.of_nat (length dhi) in
  ts <> 0 ->
  n_dir <> ts * hr \/ n_dif <> ts * hr ->
  exists name provided hint_text,
    from_values loc dni dhi ts leap =
    Raise (AssertionError
             ("For timestep " +:+ fmt_d ts +:+ ", " +:+ fmt_d (ts * hr) +:+
              " number of data for " +:+ name +:+ " is expected. " +:+
              fmt_d provided +:+ " is provided." +:+ hint_text)) /\
    hr = (if leap then 8784 else 8760) /\
    (n_dir mod hr = 0 ->
     hint_text = " Did you forget to set the timestep to " +:+ fmt_d (n_dir / hr) +:+ "?"
     /\ n_dir = n_dir / hr * hr) /\
    (n_dir mod hr <> 0 -> hint_text = EmptyString).
Proof.
  intros hr n_dir n_dif Hts Hlen.
  assert (Hhr : hr = if leap then 8784 else 8760) by (destruct leap; reflexivity).
  assert (Hhint :
    (n_dir mod hr = 0 ->
     hint n_dir hr = " Did you forget to set the timestep to " +:+ fmt_d (n_dir / hr) +:+ "?"
     /\ n_dir = n_dir / hr * hr) /\
    (n_dir mod hr <> 0 -> hint n_dir hr = EmptyString)).
  { unfold hint. split.
    - intros Hm. rewrite Hm. split; [reflexivity |].
      pose proof (Z.div_mod n_dir hr) as Hdm.
      assert (hr <> 0) by (rewrite Hhr; destruct leap; lia). lia.
    - intros Hm. apply Z.eqb_neq in Hm. rewrite Hm. reflexivity. }
  unfold from_values, true_div. fold hr n_dir n_dif.
  apply Z.eqb_neq in Hts as Hts'. rewrite Hts'. cbn.
  destruct (Qeq_bool (inject_Z n_dir / inject_Z ts) (inject_Z hr)) eqn:Hq1; cbn.
  - apply Qeq_bool_iff in Hq1. apply (true_div_eq _ _ _ Hts) in Hq1.
    destruct Hlen as [Hlen|Hlen]; [contradiction |].
    destruct (Qeq_bool (inject_Z n_dif / inject_Z ts) (inject_Z hr)) eqn:Hq2; cbn.
    + apply Qeq_bool_iff in Hq2. apply (true_div_eq _ _ _ Hts) in Hq2. contradiction.
    + exists "diffuse_horizontal_irradiance"%string, n_dir, (hint n_dir hr).
      split; [reflexivity |]. split; [exact Hhr | exact Hhint].
  - exists "direct normal irradiance"%string, n_dir, (hint n_dir hr).
    split; [reflexivity |]. split; [exact Hhr | exact Hhint].
Qed.

End from_values_errors.

(** A call the theorem applies to: 5 values for an hourly year. *)
Lemma from_values_wrong_length_witness :
  exists name provided hint_text,
    wea.from_values (H := demo.world) demo.chicago
                    [1%Q; 2%Q; 3%Q; 4%Q; 5%Q] [1%Q; 2%Q; 3%Q; 4%Q; 5%Q] 1 false =
    Raise (AssertionError
             ("For timestep " +:+ fmt_d 1 +:+ ", " +:+ fmt_d (1 * 8760) +:+
              " number of data for " +:+ name +:+ " is expected. " +:+
              fmt_d provided +:+ " is provided." +:+ hint_text)).
Proof.
  destruct (from_values_wrong_length (H := demo.world) demo.chicago
              [1%Q; 2%Q; 3%Q; 4%Q; 5%Q] [1%Q; 2%Q; 3%Q; 4%Q; 5%Q] 1 false)
    as (name & provided & hint_text & Hraise & _);
    [lia | left; vm_compute; discriminate |].
  exists name, provided, hint_text. exact Hraise.
Defined.

(** C4, as stated, fails: with timestep 2 and 8760 values the message carries
    the hint (suggesting timestep 1), although 8760 is not a multiple of the
    expected count 17520. *)
Lemma from_values_hint_not_multiple_of_expected :
  wea.from_values (H := demo.world) demo.chicago
                  (replicate 8760 0%Q) (replicate 8760 0%Q) 2 false =
  Raise (AssertionError
    ("For timestep 2, 17520 number of data for direct normal irradiance" +:+
     " is expected. 8760 is provided." +:+
     " Did you forget to set the timestep to 1?")) /\
  8760 mod (2 * wea.hr_count (JBool false)) <> 0.
Proof. split; [reflexivity | vm_compute; discriminate]. Qed.

(** ** Irradiance on a horizontal surface (C5) *)
Section horizontal_surface.
Import wea.
Context `{Collaborators}.

Local Abbreviation Point := (DataPoint Q DateTime).
Local Open Scope R_scope.

Lemma radians_90 : radians 90 = PI / 2.
Proof. unfold radians. lra. Qed.

Lemma radians_180 : radians 180 = PI.
Proof. unfold radians. lra. Qed.

(** The normal of a surface facing altitude 90 points straight up. *)
Lemma normal_up :
  pol2cart (radians 180) (radians 90) = {| euclid.x := 0; euclid.y := 0; euclid.z := 1 |}.
Proof.
  unfold pol2cart. rewrite radians_90, radians_180, sin_PI, cos_PI, cos_PI2, sin_PI2.
  f_equal; lra.
Qed.

Lemma magnitude_pol2cart (phi theta : R) : euclid.magnitude (pol2cart phi theta) = 1.
Proof.
  unfold euclid.magnitude, pol2cart. cbn.
  replace (sin phi * cos theta * (sin phi * cos theta) +
           cos phi * cos theta * (cos phi * cos theta) + sin theta * sin theta)
    with 1; [apply sqrt_1 |].
  pose proof (sin2_cos2 phi) as Hphi. pose proof (sin2_cos2 theta) as Htheta.
  unfold Rsqr in Hphi, Htheta.
  replace (sin phi * cos theta * (sin phi * cos theta) +
           cos phi * cos theta * (cos phi * cos theta) + sin theta * sin theta)
    with ((sin phi * sin phi + cos phi * cos phi) * (cos theta * cos theta) +
          sin theta * sin theta) by ring.
  rewrite Hphi. lra.
Qed.

(** The angle between the sun vector and the vertical. *)
Lemma angle_to_vertical (phi theta : R) :
  euclid.angle (pol2cart phi theta) (pol2cart (radians 180) (radians 90))
  = acos (sin theta).
Proof.
  unfold euclid.angle. rewrite !magnitude_pol2cart, normal_up.
  unfold euclid.dot, pol2cart. cbn. f_equal. field.
Qed.

Lemma cos_angle_to_vertical (phi theta : R) :
  cos (euclid.angle (pol2cart phi theta) (pol2cart (radians 180) (radians 90)))
  = sin theta.
Proof. rewrite angle_to_vertical. apply cos_acos, SIN_bound. Qed.

Lemma angle_to_vertical_acute (phi theta : R) :
  0 < theta <= PI / 2 ->
  euclid.angle (pol2cart phi theta) (pol2cart (radians 180) (radians 90)) < PI / 2.
Proof.
  intros Htheta. rewrite angle_to_vertical.
  rewrite acos_asin by apply SIN_bound. rewrite asin_sin by lra. lra.
Qed.

(** Sun altitudes in degrees, as rationals and as angles. *)
Lemma radians_sun_up (a : Q) :
  (0 < a)%Q -> (a <= 90)%Q -> 0 < radians (Q2R a) <= PI / 2.
Proof.
  intros H0 H90. apply Qlt_Rlt in H0. apply Qle_Rle in H90.
  replace (Q2R 0) with 0 in H0 by (unfold Q2R; cbn; lra).
  replace (Q2R 90) with 90 in H90 by (unfold Q2R; cbn; lra).
  pose proof PI_RGT_0 as Hpi. unfold radians. split; nra.
Qed.

Lemma positive_spec (a : Q) : positive a = true <-> (0 < a)%Q.
Proof.
  unfold positive. rewrite negb_true_iff. split.
  - intros Hle. apply Qnot_le_lt. intros Hle'. apply Qle_bool_iff in Hle'. congruence.
  - intros Hlt. destruct (Qle_bool a 0) eqn:E; [| reflexivity].
    apply Qle_bool_iff in E. exfalso. apply (Qlt_not_le _ _ Hlt E).
Qed.

Lemma not_positive_spec (a : Q) : positive a = false <-> (a <= 0)%Q.
Proof.
  unfold positive. rewrite negb_false_iff. apply Qle_bool_iff.
Qed.

(** Under an isotropic sky [directional_irradiance] returns its four series. *)
Lemma directional_irradiance_isotropic (self : Wea) (srf_altitude srf_azimuth gr : R) :
  let rows :=
    map (isotropic_row (sunpath_of self)
           (pol2cart (radians srf_azimuth) (radians srf_altitude)) srf_altitude gr)
        (zip (data (direct_normal_irradiance self))
             (data (diffuse_horizontal_irradiance self))) in
  directional_irradiance self srf_altitude srf_azimuth (inr gr) true =
  OK (map (fun '(srf_dir, srf_dif, srf_ref, dt) =>
             irradiance_point "Irradiance" (srf_dir + srf_dif + srf_ref) dt) rows,
      map (fun '(srf_dir, _, _, dt) => irradiance_point "Irradiance" srf_dir dt) rows,
      map (fun '(_, srf_dif, _, dt) => irradiance_point "Irradiance" srf_dif dt) rows,
      map (fun '(_, _, srf_ref, dt) => irradiance_point "Irradiance" srf_ref dt) rows).
Proof.
  intros rows. unfold directional_irradiance. cbn.
  rewrite (map_each_pure _
    (isotropic_row (sunpath_of self)
       (pol2cart (radians srf_azimuth) (radians srf_altitude)) srf_altitude gr));
    [reflexivity |].
  intros [dnr dhr]. reflexivity.
Qed.

(** The row of a surface facing straight up. *)
Lemma horizontal_row (sp : Sunpath) (gr : R) (p q : Point) :
  let alt := altitude (calculate_sun_from_date_time sp (datetime p)) in
  exists srf_dir,
    isotropic_row sp (pol2cart (radians 180) (radians 90)) 90 gr (p, q)
    = (srf_dir, Q2R (value q), 0, datetime p) /\
    ((0 < alt)%Q -> (alt <= 90)%Q ->
     srf_dir = Q2R (value p) * sin (radians (Q2R alt))) /\
    ((alt <= 0)%Q -> srf_dir = 0).
Proof.
  intros alt. unfold isotropic_row. cbn [fst snd]. fold alt.
  assert (E1 : Q2R (value q) * (sin (radians 90) / 2 + 0.5) = Q2R (value q)).
  { rewrite radians_90, sin_PI2. lra. }
  assert (E2 : forall e, e * gr * (0.5 - sin (radians 90) / 2) = 0).
  { intros e. rewrite radians_90, sin_PI2. lra. }
  rewrite E1, E2.
  eexists. split; [reflexivity | split].
  - intros H0 H90. apply positive_spec in H0 as Hpos. rewrite Hpos.
    pose proof (angle_to_vertical_acute
                  (radians (Q2R (azimuth (calculate_sun_from_date_time sp (datetime p)))))
                  (radians (Q2R alt)) (radians_sun_up alt H0 H90)) as Hacute.
    unfold Rltb. destruct (Rlt_dec _ _) as [_|Hn]; [| contradiction].
    cbn [andb]. rewrite cos_angle_to_vertical. reflexivity.
  - intros Hle. apply not_positive_spec in Hle. rewrite Hle. reflexivity.
Qed.

(** C5 fails on the code: for every engine, [directional_irradiance] with
    altitude 90 returns its four series, but [global_horizontal_irradiance]
    and [direct_horizontal_irradiance], which the total and the direct series
    are to be compared with, return nothing: both build their header with
    [Header(..., location=...)], which raises TypeError, before they compute a
    single sample. *)
Theorem horizontal_series_never_return (w : Wea) (gr : R) :
  (exists tot dir dif ref,
     directional_irradiance w 90 180 (inr gr) true = OK (tot, dir, dif, ref)) /\
  (exists e, global_horizontal_irradiance w = Raise e) /\
  (exists e, direct_horizontal_irradiance w = Raise e) /\
  (forall ap,
     AnalysisPeriod_new (timestep w) (is_leap_year w) = OK ap ->
     global_horizontal_irradiance w =
       Raise (TypeError "__init__() got an unexpected keyword argument 'location'") /\
     direct_horizontal_irradiance w =
       Raise (TypeError "__init__() got an unexpected keyword argument 'location'")).
Proof.
  split.
  { pose proof (directional_irradiance_isotropic w 90 180 gr) as Hdir.
    cbv zeta in Hdir. do 4 eexists. exact Hdir. }
  unfold global_horizontal_irradiance, direct_horizontal_irradiance, Header_new.
  destruct (AnalysisPeriod_new (timestep w) (is_leap_year w)) as [ap|e];
    cbn [mbind result_bind].
  - split; [eauto |]. split; [eauto |]. intros ap' _. split; reflexivity.
  - split; [eauto |]. split; [eauto |]. intros ap' Hap. discriminate Hap.
Qed.

End horizontal_surface.

(** ** The structured representation (C6) *)
Section json_round_trip.
Import wea.
Context `{Collaborators}.

Local Abbreviation Collection := (DataCollection Header Q DateTime).

Lemma to_json_lookup (x : Wea) :
  to_json x !! "location"%string = Some (Location_to_json (location x)) /\
  to_json x !! "direct_normal_irradiance"%string =
    Some (DataCollection_to_json (direct_normal_irradiance x)) /\
  to_json x !! "diffuse_horizontal_irradiance"%string =
    Some (DataCollection_to_json (diffuse_horizontal_irradiance x)) /\
  to_json x !! "timestep"%string = Some (JInt (timestep x)) /\
  to_json x !! "is_leap_year"%string = Some (is_leap_year x).
Proof. unfold to_json. repeat split; by simplify_map_eq. Qed.

(** [to_json] gives all five keys, so [from_json] adds none. *)
Lemma to_json_complete (x : Wea) :
  dict.set_missing_to_None optional_keys (to_json x) = to_json x.
Proof.
  destruct (to_json_lookup x) as (_ & _ & _ & Hts & Hleap).
  apply map_eq. intros key. rewrite set_missing_to_None_lookup.
  destruct (to_json x !! key) eqn:Hkey; [reflexivity |].
  case_bool_decide as Hin; [| reflexivity].
  unfold optional_keys in Hin.
  apply elem_of_cons in Hin as [->|Hin]; [congruence |].
  apply elem_of_cons in Hin as [->|Hin]; [congruence |].
  by apply not_elem_of_nil in Hin.
Qed.

(** C6: for an engine [x] built by a construction path, whose location and two
    series are read back from their own representation by the Location and
    DataCollection collaborators (as [l'], [d1], [d2], with the same
    representation and as many samples), [from_json(to_json(x))] returns an
    engine whose representation is that of [x]. *)
Theorem to_json_from_json_round_trip (x : Wea) (l' : Location) (d1 d2 : Collection) :
  built x ->
  Location_from_json (Location_to_json (location x)) = OK l' ->
  Location_to_json l' = Location_to_json (location x) ->
  DataCollection_from_json (DataCollection_to_json (direct_normal_irradiance x))
    = OK d1 ->
  DataCollection_to_json d1 = DataCollection_to_json (direct_normal_irradiance x) ->
  len d1 = len (direct_normal_irradiance x) ->
  DataCollection_from_json (DataCollection_to_json (diffuse_horizontal_irradiance x))
    = OK d2 ->
  DataCollection_to_json d2 = DataCollection_to_json (diffuse_horizontal_irradiance x) ->
  len d2 = len (diffuse_horizontal_irradiance x) ->
  exists x', fst (from_json (to_json x)) = OK x' /\ to_json x' = to_json x.
Proof.
  intros Hx Hl Hl' Hd1 Hd1' Hn1 Hd2 Hd2' Hn2.
  destruct (built_annual x Hx) as (Hts & Hdir & Hdif).
  destruct (to_json_lookup x) as (Kloc & Kdir & Kdif & Kts & Kleap).
  exists {| location := l';
            _direct_normal_irradiance := d1;
            _diffuse_horizontal_irradiance := d2;
            _timestep := _timestep x;
            _is_leap_year := _is_leap_year x |}.
  split.
  - unfold from_json.
    rewrite required_keys_present.
    2:{ intros k Hk. unfold required_keys in Hk.
        repeat (apply elem_of_cons in Hk as [->|Hk]; [eauto |]).
        by apply not_elem_of_nil in Hk. }
    rewrite to_json_complete. unfold dict.getitem.
    rewrite Kloc, Kdir, Kdif, Kts, Kleap. cbn.
    rewrite Hl. cbn. rewrite Hd1. cbn. rewrite Hd2. cbn.
    unfold __init__. cbn.
    apply Z.eqb_neq in Hts as Hts'. rewrite Hts'. cbn.
    assert (A1 : assert_annual "direct_normal_irradiance" (timestep x)
                   (is_leap_year x) d1 = OK tt).
    { apply assert_annual_OK. split; [assumption | congruence]. }
    assert (A2 : assert_annual "diffuse_horizontal_irradiance" (timestep x)
                   (is_leap_year x) d2 = OK tt).
    { apply assert_annual_OK. split; [assumption | congruence]. }
    rewrite A1. cbn. rewrite A2. reflexivity.
  - unfold to_json, direct_normal_irradiance, diffuse_horizontal_irradiance,
      timestep, is_leap_year. cbn.
    rewrite Hl', Hd1', Hd2'. reflexivity.
Qed.

End json_round_trip.

(** An engine the theorem applies to: the one read from the hourly weather
    file of the demonstration world. *)
Lemma to_json_from_json_round_trip_witness :
  exists x x',
    wea.from_epw_file (H := demo.world) "chicago.epw" 1 = OK x /\
    fst (wea.from_json (H := demo.world) (wea.to_json x)) = OK x' /\
    wea.to_json x' = wea.to_json x.
Proof.
  pose proof epw_engine as Hw.
  destruct (to_json_from_json_round_trip (H := demo.world) _ _ _ _
              (wea.built_from_epw_file _ _ _ Hw)
              (demo_location_round_trip _) eq_refl
              (demo_collection_round_trip _) eq_refl eq_refl
              (demo_collection_round_trip _) eq_refl eq_refl)
    as (x' & Hx' & Hjson).
  eexists. exists x'. split; [exact Hw |]. split; [exact Hx' | exact Hjson].
Defined.

(** ** Temperature conversion (C7) *)
Section temperature_facts.
Import temperature.

Lemma not_same_values_1 (a b : Q) : ~ (a == b)%Q -> ~ same_values [a] [b].
Proof. intros Hne Hs. inversion Hs; subst. contradiction. Qed.

(** C7, as amended: [to_unit(values, unit, from_unit)] converts from its third
    argument to its second.  From Celsius to Fahrenheit every value [c] becomes
    [c * 9 / 5 + 32], from Celsius to Kelvin [c + 273.15]; [to_unit([0], 'F',
    'C')] is [[32]], [to_unit([100], 'F', 'C')] is [[212]] and [to_unit([0],
    'C', 'K')] is [[-273.15]]. *)
Theorem to_unit_standard_formulas :
  (forall values : list Q,
     to_unit values "F" "C" = OK (map (fun c => c * 9 / 5 + 32)%Q values)) /\
  (forall values : list Q,
     to_unit values "K" "C" = OK (map (fun c => c + 273.15)%Q values)) /\
  (exists l, to_unit [0%Q] "F" "C" = OK l /\ same_values l [32%Q]) /\
  (exists l, to_unit [100%Q] "F" "C" = OK l /\ same_values l [212%Q]) /\
  (exists l, to_unit [0%Q] "C" "K" = OK l /\ same_values l [(-273.15)%Q]).
Proof.
  repeat split; try reflexivity.
  all: eexists; split; [reflexivity |];
    constructor; [vm_compute; reflexivity | constructor].
Qed.

(** C7, as stated, fails: [to_unit([100], 'C', 'F')] converts 100 degrees
    Fahrenheit to Celsius and [to_unit([0], 'K', 'C')] converts 0 degrees
    Celsius to Kelvin, so the results are [[340/9]] and [[273.15]], not
    [[212]] and [[-273.15]]. *)
Lemma to_unit_argument_order :
  exists l1 l2,
    to_unit [100%Q] "C" "F" = OK l1 /\ same_values l1 [(340 # 9)%Q] /\
    ~ same_values l1 [212%Q] /\
    to_unit [0%Q] "K" "C" = OK l2 /\ same_values l2 [273.15%Q] /\
    ~ same_values l2 [(-273.15)%Q].
Proof.
  do 2 eexists. split; [reflexivity |]. split.
  { constructor; [vm_compute; reflexivity | constructor]. }
  split. { apply not_same_values_1. vm_compute. discriminate. }
  split; [reflexivity |]. split.
  { constructor; [vm_compute; reflexivity | constructor]. }
  apply not_same_values_1. vm_compute. discriminate.
Qed.

End temperature_facts.

(** ** The anisotropic sky (C8) *)
Section anisotropic.
Import wea.
Context `{Collaborators}.

Local Abbreviation Point := (DataPoint Q DateTime).
Local Open Scope R_scope.

(** With [isotrophic=False] the first timestep reads [self.dhr] and the call
    ends there. *)
Lemma directional_irradiance_anisotropic (self : Wea) (srf_altitude srf_azimuth gr : R)
    (v : Point * Point) (rest : list (Point * Point)) :
  zip (data (direct_normal_irradiance self))
      (data (diffuse_horizontal_irradiance self)) = v :: rest ->
  directional_irradiance self srf_altitude srf_azimuth (inr gr) false
  = Raise (AttributeError "dhr").
Proof.
  intros Hzip. unfold directional_irradiance. rewrite Hzip. destruct v as [p q].
  reflexivity.
Qed.

(** The weight the code computes when the sun is along the surface normal. *)
Lemma horizon_brightening_0 : horizon_brightening 0 = 1.084969.
Proof.
  unfold horizon_brightening. rewrite cos_0. rewrite Rmax_right; lra.
Qed.

End anisotropic.

(** C8 fails on the code: with [isotrophic=False] the call raises
    AttributeError at the first timestep, and the weight it computes before
    that squares the coefficient: along the surface normal it is 1.084969,
    where [max(0.45, 0.55 + 0.437*cos(angle) + 0.313*cos(angle)^2)] is 1.3. *)
Theorem anisotropic_branch_fails :
  (exists w,
     wea.from_epw_file (H := demo.world) "chicago.epw" 1 = OK w /\
     wea.directional_irradiance w 90 180 (inr 0.2%R) false
     = Raise (AttributeError "dhr")) /\
  wea.horizon_brightening 0 = 1.084969%R /\
  Rmax 0.45 (0.55 + 0.437 * cos 0 + 0.313 * (cos 0 * cos 0))%R = 1.3%R.
Proof.
  split; [| split].
  - eexists. split; [apply epw_engine |].
    eapply directional_irradiance_anisotropic. reflexivity.
  - apply horizon_brightening_0.
  - rewrite cos_0. rewrite Rmax_right; lra.
Qed.

(** ** Writing a subset of hours (C9) *)
Section write_subset.
Import wea.
Context `{Collaborators}.

(** A requested hour beyond the last sample raises IndexError in
    [get_irradiance_values_for_hoy]. *)
Lemma hoy_without_sample (self : Wea) (hoy : Q) :
  len (direct_normal_irradiance self) <= int_of (hoy * inject_Z (timestep self))%Q ->
  get_irradiance_values_for_hoy self hoy = Raise IndexError.
Proof.
  intros Hlen. unfold get_irradiance_values_for_hoy.
  rewrite (getitem_out_of_range (data (direct_normal_irradiance self)))
    by exact Hlen.
  reflexivity.
Qed.

(** When the first requested hour has no sample, the warning reads the local
    variable [dt] before any assignment and the whole call fails. *)
Lemma write_first_hour_missing (self : Wea) (file_path : string) (hoy : Q)
    (hoys : list Q) (write_hours : bool) :
  len (direct_normal_irradiance self) <= int_of (hoy * inject_Z (timestep self))%Q ->
  write self file_path (Some (hoy :: hoys)) write_hours =
  Raise (UnboundLocalError "dt").
Proof.
  intros Hlen.
  assert (Hlines : write_lines self (Some (hoy :: hoys))
                   = Raise (UnboundLocalError "dt")).
  { unfold write_lines.
    change (for_each (write_hoy self) (hoy :: hoys) ?st)
      with (st' ← write_hoy self st hoy; for_each (write_hoy self) hoys st').
    assert (Hstep : forall st, dt st = None ->
              write_hoy self st hoy = Raise (UnboundLocalError "dt")).
    { intros st Hdt. unfold write_hoy.
      rewrite (hoy_without_sample self hoy Hlen), Hdt. reflexivity. }
    rewrite Hstep by reflexivity. reflexivity. }
  unfold write. rewrite Hlines. reflexivity.
Qed.

(** When an hour after a written one has no sample, it is skipped with a
    warning (which names the datetime of the last written hour). *)
Lemma write_later_hour_missing (self : Wea) (st : write_state) (hoy : Q)
    (d : DateTime) :
  len (direct_normal_irradiance self) <= int_of (hoy * inject_Z (timestep self))%Q ->
  dt st = Some d ->
  write_hoy self st hoy =
  OK {| lines := lines st; dt := Some d;
        printed := printed st ++
          ["Warn: Wea data for " +:+ DateTime_str d +:+ " is not available!"] |}.
Proof.
  intros Hlen Hd. unfold write_hoy.
  rewrite (hoy_without_sample self hoy Hlen), Hd. reflexivity.
Qed.

End write_subset.

(** C9 fails on the code: for an hourly engine of 8760 samples, writing the
    subset [[8760]], whose first and only hour has no sample, raises
    UnboundLocalError instead of printing a warning and completing. *)
Theorem write_fails_when_first_hour_is_missing :
  exists w,
    wea.from_epw_file (H := demo.world) "chicago.epw" 1 = OK w /\
    wea.write w "chicago.wea" (Some [8760%Q]) false = Raise (UnboundLocalError "dt").
Proof.
  pose proof epw_engine as Hw.
  eexists. split; [exact Hw |].
  apply write_first_hour_missing.
  destruct (built_annual (H := demo.world) _ (wea.built_from_epw_file _ _ _ Hw))
    as (_ & Hdir & _).
  rewrite Hdir.
  change (1 * wea.hr_count (JBool false) <= int_of (8760 * inject_Z 1)%Q).
  vm_compute. discriminate.
Qed.

(** ** The dict of the caller of [from_json] (C10) *)
Section caller_dict.

(** C10, as amended: [Wea.from_json], once it has found the three required
    keys in the dict, and [Header.from_json], for every dict, leave the
    caller's dict with every optional key that was absent set to [None], and
    with every other key as it was. *)
Theorem from_json_mutates_caller_dict `{wea.Collaborators} `{header.Collaborators}
    (data : gmap string json) (key : string) :
  ((forall k, k ∈ wea.required_keys -> is_Some (data !! k)) ->
   (key ∈ wea.optional_keys -> data !! key = None ->
    snd (wea.from_json data) !! key = Some JNone) /\
   (is_Some (data !! key) \/ key ∉ wea.optional_keys ->
    snd (wea.from_json data) !! key = data !! key)) /\
  (key ∈ header.keys -> data !! key = None ->
   snd (header.from_json data) !! key = Some JNone) /\
  (is_Some (data !! key) \/ key ∉ header.keys ->
   snd (header.from_json data) !! key = data !! key).
Proof.
  assert (Hfill : forall keys,
    (key ∈ keys -> data !! key = None ->
     dict.set_missing_to_None keys data !! key = Some JNone) /\
    (is_Some (data !! key) \/ key ∉ keys ->
     dict.set_missing_to_None keys data !! key = data !! key)).
  { intros keys. rewrite set_missing_to_None_lookup. split.
    - intros Hin ->. rewrite bool_decide_eq_true_2; [reflexivity | assumption].
    - intros [[v ->]|Hnin]; [reflexivity |].
      destruct (data !! key); [reflexivity |].
      rewrite bool_decide_eq_false_2; [reflexivity | assumption]. }
  split.
  - intros Hreq. rewrite (wea_from_json_dict data Hreq). apply Hfill.
  - change (snd (header.from_json data))
      with (dict.set_missing_to_None header.keys data).
    apply Hfill.
Qed.

End caller_dict.

(** A dict the theorem applies to: the required keys of an engine and nothing
    else. *)
Lemma from_json_mutates_caller_dict_witness :
  snd (wea.from_json (H := demo.world) demo.sparse_data) !! "timestep"%string
    = Some JNone /\
  snd (header.from_json (H := demo.header_world) demo.sparse_data) !! "unit"%string
    = Some JNone.
Proof.
  split.
  - apply (from_json_mutates_caller_dict (H := demo.world) (H0 := demo.header_world)
             demo.sparse_data "timestep").
    + intros k Hk. unfold wea.required_keys in Hk.
      repeat (apply elem_of_cons in Hk as [->|Hk]; [eexists; reflexivity |]).
      by apply not_elem_of_nil in Hk.
    + apply elem_of_cons. by left.
    + reflexivity.
  - apply (from_json_mutates_caller_dict (H := demo.world) (H0 := demo.header_world)
             demo.sparse_data "unit").
    + apply elem_of_cons. right. apply elem_of_cons. by left.
    + reflexivity.
Defined.

(** C10, as stated, fails: on a dict without the required keys, such as the
    empty dict, [Wea.from_json] raises the assertion on the first required key
    before it fills anything in; ['timestep'] and ['is_leap_year'] are still
    absent from the dict of the caller. *)
Lemma from_json_rejected_dict_is_not_filled :
  exists msg,
    fst (wea.from_json (H := demo.world) ∅) = Raise (AssertionError msg) /\
    snd (wea.from_json (H := demo.world) ∅) !! "timestep"%string = None /\
    snd (wea.from_json (H := demo.world) ∅) !! "is_leap_year"%string = None.
Proof. eexists. split; [reflexivity |]. split; reflexivity. Qed.

(** * Further properties of the code *)

(** Membership of a key in a list of keys written out. *)
Ltac in_keys :=
  repeat first [apply elem_of_cons; left; reflexivity | apply elem_of_cons; right].

(** ** Reading an engine and a header from a dict *)
Section from_json_facts.
Import wea.
Context `{Collaborators}.

Local Abbreviation Collection := (DataCollection Header Q DateTime).

Lemma set_missing_to_None_idempotent (keys : list string) (data : gmap string json) :
  dict.set_missing_to_None keys (dict.set_missing_to_None keys data)
  = dict.set_missing_to_None keys data.
Proof.
  apply map_eq. intros key. rewrite !set_missing_to_None_lookup.
  destruct (data !! key); [reflexivity |].
  case_bool_decide; reflexivity.
Qed.

Lemma required_keys_checked (data : gmap string json) :
  (forall k, k ∈ required_keys -> is_Some (data !! k)) \/
  exists before k after,
    required_keys = before ++ k :: after /\
    (forall k', k' ∈ before -> is_Some (data !! k')) /\
    data !! k = None /\
    for_each (fun (_ : unit) key =>
                assert (dict.contains data key)
                       ("Required key " +:+ dquote +:+ key +:+ dquote +:+
                        " is missing!")) required_keys tt
    = Raise (AssertionError ("Required key " +:+ dquote +:+ k +:+ dquote +:+
                             " is missing!")).
Proof.
  unfold required_keys.
  destruct (dict.contains data "location") eqn:E1.
  2:{ right. exists [], "location"%string. eexists. apply contains_false in E1 as E1'.
      split; [reflexivity |].
      split; [intros k' Hk'; by apply not_elem_of_nil in Hk' |].
      split; [exact E1' |].
      cbn [for_each]. rewrite E1. reflexivity. }
  destruct (dict.contains data "direct_normal_irradiance") eqn:E2.
  2:{ right. exists ["location"%string], "direct_normal_irradiance"%string. eexists.
      apply contains_false in E2 as E2'.
      split; [reflexivity |]. split.
      { intros k' Hk'. apply elem_of_cons in Hk' as [->|Hk'];
          [by apply contains_spec | by apply not_elem_of_nil in Hk']. }
      split; [exact E2' |]. cbn [for_each]. rewrite E1, E2. reflexivity. }
  destruct (dict.contains data "diffuse_horizontal_irradiance") eqn:E3.
  2:{ right.
      exists ["location"%string; "direct_normal_irradiance"%string],
             "diffuse_horizontal_irradiance"%string. eexists.
      apply contains_false in E3 as E3'.
      split; [reflexivity |]. split.
      { intros k' Hk'.
        repeat (apply elem_of_cons in Hk' as [->|Hk']; [by apply contains_spec |]).
        by apply not_elem_of_nil in Hk'. }
      split; [exact E3' |]. cbn [for_each]. rewrite E1, E2, E3. reflexivity. }
  left. intros k Hk.
  repeat (apply elem_of_cons in Hk as [->|Hk]; [by apply contains_spec |]).
  by apply not_elem_of_nil in Hk.
Qed.

(** [Wea.from_json] on a dict that lacks a required key fails with an
    assertion error that names the first key of [('location',
    'direct_normal_irradiance', 'diffuse_horizontal_irradiance')] that is
    missing, and leaves the dict as it was: no optional key is added. *)
Theorem from_json_missing_required_key (data : gmap string json) (key : string) :
  key ∈ required_keys -> data !! key = None ->
  required_keys =
    ["location"; "direct_normal_irradiance"; "diffuse_horizontal_irradiance"]%string /\
  exists before k after,
    required_keys = before ++ k :: after /\
    (forall k', k' ∈ before -> is_Some (data !! k')) /\
    data !! k = None /\
    from_json data =
    (Raise (AssertionError ("Required key " +:+ dquote +:+ k +:+ dquote +:+
                            " is missing!")), data).
Proof.
  intros Hkey Hnone. split; [reflexivity |].
  destruct (required_keys_checked data)
    as [Hall | (before & k & after & Heq & Hbefore & Hk & Hfor)].
  - destruct (Hall key Hkey) as [v Hv]. congruence.
  - exists before, k, after. repeat (split; [assumption |]).
    unfold from_json. rewrite Hfor. reflexivity.
Qed.

(** Calling [Wea.from_json] again on the dict it has left behind gives the
    same outcome and changes the dict no further. *)
Theorem wea_from_json_twice (data : gmap string json) :
  from_json (snd (from_json data)) = from_json data.
Proof.
  destruct (required_keys_checked data)
    as [Hall | (before & k & after & _ & _ & Hk' & Hfor)].
  - rewrite (wea_from_json_dict data Hall).
    assert (Hall' : forall k, k ∈ required_keys ->
              is_Some (dict.set_missing_to_None optional_keys data !! k)).
    { intros k Hk. rewrite set_missing_to_None_lookup.
      destruct (Hall k Hk) as [v ->]. eauto. }
    unfold from_json.
    rewrite (required_keys_present _ required_keys Hall').
    rewrite (required_keys_present _ required_keys Hall).
    rewrite set_missing_to_None_idempotent. reflexivity.
  - unfold from_json at 2. rewrite Hfor. cbn [snd].
    unfold from_json. rewrite Hfor. reflexivity.
Qed.

End from_json_facts.

(** A dict the theorem applies to: an empty one, for which the key named is
    ['location']. *)
Lemma from_json_missing_required_key_witness :
  wea.from_json (H := demo.world) ∅ =
  (Raise (AssertionError ("Required key " +:+ dquote +:+ "location" +:+ dquote +:+
                          " is missing!")), ∅).
Proof.
  destruct (from_json_missing_required_key (H := demo.world) ∅ "location")
    as (_ & before & k & after & Heq & Hbefore & _ & Hk).
  - apply elem_of_cons. by left.
  - reflexivity.
  - destruct before as [|b before].
    + injection Heq as <- _. exact Hk.
    + destruct (Hbefore b) as [v Hv]; [apply elem_of_cons; by left |].
      rewrite lookup_empty in Hv. discriminate Hv.
Defined.

(** ** Headers *)
Section header_facts.
Import header.
Context `{Collaborators}.

(** Calling [Header.from_json] again on the dict it has left behind gives
    the same outcome and changes the dict no further. *)
Theorem header_from_json_twice (data : gmap string json) :
  from_json (snd (from_json data)) = from_json data.
Proof.
  unfold from_json. cbn [snd]. rewrite set_missing_to_None_idempotent. reflexivity.
Qed.

Lemma filled_key (data : gmap string json) (key : string) :
  key ∈ keys ->
  dict.getitem (dict.set_missing_to_None keys data) key =
  OK (match data !! key with Some v => v | None => JNone end).
Proof.
  intros Hkey. unfold dict.getitem. rewrite set_missing_to_None_lookup.
  destruct (data !! key); [reflexivity |].
  rewrite bool_decide_eq_true_2 by exact Hkey. reflexivity.
Qed.

(** The header [Header.from_json] returns has unit [None] when the dict has
    no ['unit'] or a false one (such as the empty string), and the unit of the
    dict otherwise; its metadata is an empty dict when the dict has no
    ['metadata'] or a false one, and never [None]. *)
Theorem header_from_json_defaults (data : gmap string json) (h : Header) :
  fst (from_json data) = OK h ->
  let unit := match data !! "unit"%string with Some v => v | None => JNone end in
  let metadata := match data !! "metadata"%string with Some v => v | None => JNone end in
  _unit h = (if truthy unit then unit else JNone) /\
  _metadata h = (if truthy metadata then metadata else JDict []) /\
  _metadata h <> JNone.
Proof.
  intros Hh unit metadata. unfold from_json in Hh. cbn [fst] in Hh.
  rewrite (filled_key data "data_type"), (filled_key data "unit"),
          (filled_key data "analysis_period"), (filled_key data "metadata") in Hh
    by (unfold keys; in_keys).
  cbn in Hh. fold unit metadata in Hh.
  inv_result Hh. unfold __init__, set_data_type_and_unit in Hh. inv_result Hh.
  injection Hh as <-. cbn [_unit _metadata].
  match goal with E : match is_unit_acceptable _ _ with _ => _ end = OK _ |- _ =>
    destruct (is_unit_acceptable _ _); [injection E as <- <- | discriminate E] end.
  split; [reflexivity |]. split; [reflexivity |].
  destruct (truthy metadata) eqn:Em; [| discriminate].
  intros Hm. rewrite Hm in Em. discriminate.
Qed.

Lemma init_with_strings_fails (args : list string) :
  exists e, init_with_strings args = Raise e.
Proof.
  unfold init_with_strings. destruct args as [|data_type rest]; [eauto |].
  destruct (3 <? length rest)%nat; eauto.
Qed.

(** [Header.from_header] returns a header object as it is, and it never
    makes a header from a text: whatever the text, the call ends in a
    ValueError whose message starts with "Failed to create a Header from" and
    the text. *)
Theorem from_header_never_parses :
  (forall h : Header, from_header (inl h) = OK h) /\
  (forall text : string,
     exists reason,
       from_header (inr text) =
       Raise (ValueError ("Failed to create a Header from " +:+ text +:+ "!" +:+
                          nl +:+ reason))).
Proof.
  split; [reflexivity |]. intros text. unfold from_header.
  destruct (init_with_strings_fails
              (split_stars (replace_char ")" EmptyString
                 (replace_char "(" "**" (replace_char "|" "**" text))))) as [e ->].
  eauto.
Qed.

End header_facts.

(** A dict the theorem applies to: only a data type. *)
Lemma header_from_json_defaults_witness :
  exists h,
    fst (header.from_json (H := demo.header_world)
           {[ "data_type"%string := JStr "Temperature" ]}) = OK h /\
    header._unit h = JNone /\ header._metadata h = JDict [].
Proof.
  assert (Hh : fst (header.from_json (H := demo.header_world)
                      {[ "data_type"%string := JStr "Temperature" ]})
               = OK (@header.Build_Header demo.header_world
                       "Temperature"%string JNone JNone (JDict []))) by reflexivity.
  destruct (header_from_json_defaults (H := demo.header_world) _ _ Hh) as (Hu & Hm & _).
  eexists. split; [exact Hh |]. split; [exact Hu | exact Hm].
Defined.

(** ** Constructing an engine *)
Section construction_facts.
Import wea.
Context `{Collaborators}.

Local Abbreviation Point := (DataPoint Q DateTime).
Local Abbreviation Collection := (DataCollection Header Q DateTime).

Lemma getitem_set_missing (keys : list string) (data : gmap string json)
    (key : string) :
  key ∈ keys ->
  dict.getitem (dict.set_missing_to_None keys data) key =
  OK (match data !! key with Some v => v | None => JNone end).
Proof.
  intros Hkey. unfold dict.getitem. rewrite set_missing_to_None_lookup.
  destruct (data !! key); [reflexivity |].
  rewrite bool_decide_eq_true_2 by exact Hkey. reflexivity.
Qed.

Lemma getitem_set_missing_present (keys : list string) (data : gmap string json)
    (key : string) (v : json) :
  data !! key = Some v ->
  dict.getitem (dict.set_missing_to_None keys data) key = OK v.
Proof.
  intros Hkey. unfold dict.getitem. rewrite set_missing_to_None_lookup, Hkey.
  reflexivity.
Qed.

(** What [__init__] makes of its arguments. *)
Lemma init_json_fields loc (dnr dhr : Collection) (ts leap : json) (w : Wea) :
  __init__ loc dnr dhr ts leap = OK w ->
  as_int (if truthy ts then ts else JInt 1) = Some (timestep w) /\
  location w = loc /\ direct_normal_irradiance w = dnr /\
  diffuse_horizontal_irradiance w = dhr /\ is_leap_year w = leap.
Proof.
  unfold __init__. intros Hw.
  destruct (as_int _) as [z|]; [| discriminate].
  inv_result Hw. injection Hw as <-. repeat split.
Qed.

(** The constructor call [from_json] ends in. *)
Lemma from_json_init_call (data : gmap string json) (w : Wea) :
  fst (from_json data) = OK w ->
  exists loc dnr dhr,
    __init__ loc dnr dhr
      (match data !! "timestep"%string with Some v => v | None => JNone end)
      (match data !! "is_leap_year"%string with Some v => v | None => JNone end)
    = OK w.
Proof.
  unfold from_json. intros Hw.
  destruct (for_each _ _ _); [| discriminate].
  cbn [fst] in Hw.
  rewrite (getitem_set_missing optional_keys data "timestep"),
          (getitem_set_missing optional_keys data "is_leap_year") in Hw
    by (unfold optional_keys; in_keys).
  inv_result Hw. eauto.
Qed.

Lemma from_json_OK (data : gmap string json) (vl v1 v2 : json) loc
    (d1 d2 : Collection) (w : Wea) :
  data !! "location"%string = Some vl ->
  data !! "direct_normal_irradiance"%string = Some v1 ->
  data !! "diffuse_horizontal_irradiance"%string = Some v2 ->
  Location_from_json vl = OK loc ->
  DataCollection_from_json v1 = OK d1 ->
  DataCollection_from_json v2 = OK d2 ->
  __init__ loc d1 d2
    (match data !! "timestep"%string with Some v => v | None => JNone end)
    (match data !! "is_leap_year"%string with Some v => v | None => JNone end)
  = OK w ->
  fst (from_json data) = OK w.
Proof.
  intros Kl K1 K2 Hl H1 H2 Hinit. unfold from_json.
  rewrite required_keys_present.
  2:{ intros k Hk. unfold required_keys in Hk.
      repeat (apply elem_of_cons in Hk as [->|Hk]; [eauto |]).
      by apply not_elem_of_nil in Hk. }
  cbn [fst].
  rewrite (getitem_set_missing_present _ _ _ _ Kl),
          (getitem_set_missing_present _ _ _ _ K1),
          (getitem_set_missing_present _ _ _ _ K2).
  rewrite (getitem_set_missing optional_keys data "timestep"),
          (getitem_set_missing optional_keys data "is_leap_year")
    by (unfold optional_keys; in_keys).
  cbn. rewrite Hl. cbn. rewrite H1. cbn. rewrite H2. cbn. exact Hinit.
Qed.

(** An engine read by [Wea.from_json] from a dict without ['timestep'] has
    timestep 1, and one read from a dict without ['is_leap_year'] has the leap
    year flag [None] and is held to the 8760 hours of a normal year. *)
Theorem from_json_defaults (data : gmap string json) (w : Wea) :
  fst (from_json data) = OK w ->
  (data !! "timestep"%string = None -> timestep w = 1) /\
  (data !! "is_leap_year"%string = None ->
   is_leap_year w = JNone /\
   len (direct_normal_irradiance w) = timestep w * 8760 /\
   len (diffuse_horizontal_irradiance w) = timestep w * 8760).
Proof.
  intros Hw. apply from_json_init_call in Hw as (loc & dnr & dhr & Hinit).
  pose proof (init_annual _ _ _ _ _ _ Hinit) as (_ & Hdir & Hdif).
  apply init_json_fields in Hinit as (Hts & _ & _ & _ & Hleap).
  split.
  - intros Hnone. rewrite Hnone in Hts. cbn in Hts. congruence.
  - intros Hnone. rewrite Hnone in Hleap. rewrite Hleap in Hdir, Hdif.
    split; [exact Hleap |]. split; assumption.
Qed.

(** A setter accepts every series of the annual length of the engine, and
    changes nothing but the series it assigns. *)
Theorem setters_accept_annual_series (w : Wea) (data : Collection) :
  built w ->
  len data = timestep w * hr_count (is_leap_year w) ->
  (exists w', set_direct_normal_irradiance w data = OK w' /\
     direct_normal_irradiance w' = data /\
     diffuse_horizontal_irradiance w' = diffuse_horizontal_irradiance w /\
     location w' = location w /\ timestep w' = timestep w /\
     is_leap_year w' = is_leap_year w) /\
  (exists w', set_diffuse_horizontal_irradiance w data = OK w' /\
     diffuse_horizontal_irradiance w' = data /\
     direct_normal_irradiance w' = direct_normal_irradiance w /\
     location w' = location w /\ timestep w' = timestep w /\
     is_leap_year w' = is_leap_year w).
Proof.
  intros Hw Hlen. destruct (built_annual w Hw) as (Hts & _ & _).
  unfold set_direct_normal_irradiance, set_diffuse_horizontal_irradiance.
  rewrite !(proj2 (assert_annual_OK _ _ _ _)) by (split; assumption).
  split; eexists; (split; [reflexivity |]); repeat split.
Qed.

(** [from_values] never returns an engine for a timestep of 0 or less: with
    timestep 0 the division raises ZeroDivisionError, and with a negative
    timestep the first assertion fails, whatever the lengths. *)
Theorem from_values_nonpositive_timestep (loc : Location) (dni dhi : list Q)
    (ts : Z) (leap : bool) :
  ts <= 0 ->
  (ts = 0 /\ from_values loc dni dhi ts leap = Raise ZeroDivisionError) \/
  (ts < 0 /\ exists msg, from_values loc dni dhi ts leap = Raise (AssertionError msg)).
Proof.
  intros Hts. destruct (Z.eq_dec ts 0) as [->|Hne].
  - left. split; reflexivity.
  - right. split; [lia |]. unfold from_values, true_div.
    apply Z.eqb_neq in Hne as Hne'. rewrite Hne'. cbn.
    assert (Hq : Qeq_bool (inject_Z (Z.of_nat (length dni)) / inject_Z ts)
                   (inject_Z (hr_count (JBool leap))) = false).
    { destruct (Qeq_bool _ _) eqn:Hq; [| reflexivity].
      apply Qeq_bool_iff in Hq. apply (true_div_eq _ _ _ Hne) in Hq.
      pose proof (hr_count_pos (JBool leap)). nia. }
    rewrite Hq. cbn. eauto.
Qed.

(** The paths below call [_get_empty_data_collections] (or another path
    that does) on every run that gets past their own checks. *)
Ltac never_returns :=
  unfold mbind, result_bind, assert;
  repeat (cbn beta iota;
          match goal with
          | |- exists e, match _get_empty_data_collections ?loc ?ts ?leap with _ => _ end
                         = Raise e =>
            let e' := fresh "e" in
            destruct (get_empty_data_collections_raises loc ts leap) as [e' ->]
          | |- exists e, match ?m with _ => _ end = Raise e => destruct m
          end);
  eauto.

Lemma from_values_raises (loc : Location) (dni dhi : list Q) (ts : Z) (leap : bool) :
  exists e, from_values loc dni dhi ts leap = Raise e.
Proof. unfold from_values, true_div. never_returns. Qed.

Lemma from_ashrae_revised_clear_sky_raises (loc : Location)
    (tau_b tau_d : list (option Q)) (ts : Z) (leap : bool) :
  exists e, from_ashrae_revised_clear_sky loc tau_b tau_d ts leap = Raise e.
Proof. unfold from_ashrae_revised_clear_sky. never_returns. Qed.

(** In this state of the sources, every construction path that stamps its
    series with new headers fails on every input: [from_values], [from_file],
    [from_stat_file], [from_ashrae_revised_clear_sky], [from_ashrae_clear_sky]
    and [from_zhang_huang_solar] never return an engine, since
    [_get_empty_data_collections] calls [Header(..., location=...)]. *)
Theorem paths_with_new_headers_never_return :
  (forall loc dni dhi ts leap, exists e, from_values loc dni dhi ts leap = Raise e) /\
  (forall weafile ts leap, exists e, from_file weafile ts leap = Raise e) /\
  (forall statfile ts leap, exists e, from_stat_file statfile ts leap = Raise e) /\
  (forall loc tau_b tau_d ts leap,
     exists e, from_ashrae_revised_clear_sky loc tau_b tau_d ts leap = Raise e) /\
  (forall loc sky_clearness ts leap,
     exists e, from_ashrae_clear_sky loc sky_clearness ts leap = Raise e) /\
  (forall loc cc rh dbt ws ap ts leap use_disc,
     exists e, from_zhang_huang_solar loc cc rh dbt ws ap ts leap use_disc = Raise e).
Proof.
  split; [exact from_values_raises |].
  split.
  { intros weafile ts leap. unfold from_file.
    destruct (file_lines weafile) as [weaf|]; [| eauto].
    unfold mbind, result_bind, assert.
    repeat (cbn beta iota;
            match goal with
            | |- exists e, from_values _ _ _ _ _ = Raise e => apply from_values_raises
            | |- exists e, match ?m with _ => _ end = Raise e => destruct m
            end); eauto. }
  split.
  { intros statfile ts leap. unfold from_stat_file.
    unfold mbind, result_bind.
    repeat (cbn beta iota;
            match goal with
            | |- exists e, from_ashrae_revised_clear_sky _ _ _ _ _ = Raise e =>
              apply from_ashrae_revised_clear_sky_raises
            | |- exists e, match ?m with _ => _ end = Raise e => destruct m
            end); eauto. }
  split; [exact from_ashrae_revised_clear_sky_raises |].
  split.
  { intros loc sky_clearness ts leap. unfold from_ashrae_clear_sky. never_returns. }
  intros loc cc rh dbt ws ap ts leap use_disc.
  unfold from_zhang_huang_solar, true_div. never_returns.
Qed.

(** [from_values] on two sequences of the annual length, once the analysis
    period is built, ends in the TypeError of the [Header] call. *)
Theorem from_values_annual_input_raises (loc : Location) (dni dhi : list Q)
    (ts : Z) (leap : bool) (ap : AnalysisPeriod) :
  ts <> 0 ->
  Z.of_nat (length dni) = ts * hr_count (JBool leap) ->
  Z.of_nat (length dhi) = ts * hr_count (JBool leap) ->
  AnalysisPeriod_new ts (JBool leap) = OK ap ->
  from_values loc dni dhi ts leap =
  Raise (TypeError "__init__() got an unexpected keyword argument 'location'").
Proof.
  intros Hts Hdir Hdif Hap. unfold from_values, true_div.
  apply Z.eqb_neq in Hts as Hts'. rewrite Hts'. cbn [mbind result_bind].
  assert (Q1 : Qeq_bool (inject_Z (Z.of_nat (length dni)) / inject_Z ts)
                        (inject_Z (hr_count (JBool leap))) = true).
  { apply Qeq_bool_iff, true_div_eq; assumption. }
  assert (Q2 : Qeq_bool (inject_Z (Z.of_nat (length dhi)) / inject_Z ts)
                        (inject_Z (hr_count (JBool leap))) = true).
  { apply Qeq_bool_iff, true_div_eq; assumption. }
  rewrite Q1. cbn [assert mbind result_bind]. rewrite Q2. cbn [assert mbind result_bind].
  rewrite (get_empty_data_collections_TypeError _ _ _ ap Hap). reflexivity.
Qed.

End construction_facts.

(** ** The samples of an engine *)
Section sample_facts.
Import wea.
Context `{Collaborators}.

Local Abbreviation Point := (DataPoint Q DateTime).
Local Abbreviation Collection := (DataCollection Header Q DateTime).

Lemma getitem_below_range {A : Type} (l : list A) (i : Z) :
  i < - Z.of_nat (length l) -> getitem l i = Raise IndexError.
Proof.
  intros Hi. unfold getitem, index.
  assert (E : (i <? 0) = true) by (apply Z.ltb_lt; lia). rewrite E.
  assert (Hb : ((i + Z.of_nat (length l) <? 0)
                || (Z.of_nat (length l) <=? i + Z.of_nat (length l))) = true).
  { apply orb_true_iff. left. apply Z.ltb_lt. lia. }
  rewrite Hb. reflexivity.
Qed.

(** With timestep 1, [from_epw_file] keeps every value of the two series of the
    weather file, whatever the sun altitude, and moves every datetime 30
    minutes later; the file must hold 8760 hourly values, and the engine is
    never one of a leap year. *)
Theorem from_epw_file_hourly (epwfile : string) (w : Wea) :
  from_epw_file epwfile 1 = OK w ->
  exists epw,
    EPW_new epwfile = OK epw /\
    location w = epw_location epw /\ timestep w = 1 /\
    is_leap_year w = JBool false /\
    map value (data (direct_normal_irradiance w))
      = map value (data (direct_normal_radiation epw)) /\
    map value (data (diffuse_horizontal_irradiance w))
      = map value (data (diffuse_horizontal_radiation epw)) /\
    map datetime (data (direct_normal_irradiance w))
      = map (fun p => add_minute (datetime p) 30) (data (direct_normal_radiation epw)) /\
    map datetime (data (diffuse_horizontal_irradiance w))
      = map (fun p => add_minute (datetime p) 30)
            (data (diffuse_horizontal_radiation epw)) /\
    len (direct_normal_radiation epw) = 8760 /\
    len (diffuse_horizontal_radiation epw) = 8760.
Proof.
  unfold from_epw_file. intros Hw.
  destruct (EPW_new epwfile) as [epw|] eqn:Hepw; [| discriminate].
  exists epw. split; [reflexivity |].
  unfold mbind, result_bind in Hw. cbn beta iota in Hw.
  destruct (Header_set_data_type_and_unit (coll_header (direct_normal_radiation epw))
              _ _) as [h1|]; [| discriminate].
  destruct (Header_set_data_type_and_unit (coll_header (diffuse_horizontal_radiation epw))
              _ _) as [h2|]; [| discriminate].
  change (negb (1 =? 1)) with false in Hw. cbn iota in Hw.
  pose proof (init_annual _ _ _ _ _ _ Hw) as (_ & L1 & L2).
  apply init_fields in Hw as (Hloc & Hdir & Hdif & Hstep & Hleap).
  change (if 1 =? 0 then 1 else 1) with 1 in Hstep.
  rewrite Hstep, Hleap in L1, L2. rewrite Hdir in L1. rewrite Hdif in L2.
  unfold len, shift_30 in L1, L2. cbn [data] in L1, L2.
  rewrite length_map in L1, L2.
  rewrite Hdir, Hdif. unfold shift_30. cbn [data]. rewrite !map_map. cbn [value datetime].
  repeat (split; [assumption || reflexivity |]).
  exact L2.
Qed.

(** For an engine of annual length [n = timestep * hr_count], the sample index
    [get_irradiance_values_for_hoy] computes from an hour reads both series at
    the same position when it lies in [-n, n), from the end of the year when it
    is negative, and raises IndexError when it lies outside. *)
Theorem irradiance_values_for_hoy (w : Wea) (hoy : Q) :
  built w ->
  let n := timestep w * hr_count (is_leap_year w) in
  let count := int_of (hoy * inject_Z (timestep w))%Q in
  (- n <= count < n ->
   exists dir dif,
     get_irradiance_values_for_hoy w hoy = OK (dir, dif) /\
     data (direct_normal_irradiance w)
       !! Z.to_nat (if count <? 0 then count + n else count) = Some dir /\
     data (diffuse_horizontal_irradiance w)
       !! Z.to_nat (if count <? 0 then count + n else count) = Some dif) /\
  (count < - n \/ n <= count ->
   get_irradiance_values_for_hoy w hoy = Raise IndexError).
Proof.
  intros Hw n count. destruct (built_annual w Hw) as (_ & Hdir & Hdif).
  fold n in Hdir, Hdif. unfold len in Hdir, Hdif.
  unfold get_irradiance_values_for_hoy. fold count. split.
  - intros Hc.
    destruct (getitem_in_range (data (direct_normal_irradiance w)) count)
      as (dir & Hg1 & Hl1); [lia |].
    destruct (getitem_in_range (data (diffuse_horizontal_irradiance w)) count)
      as (dif & Hg2 & Hl2); [lia |].
    rewrite Hdir in Hl1. rewrite Hdif in Hl2.
    exists dir, dif. rewrite Hg1, Hg2. repeat split; assumption.
  - intros [Hc | Hc].
    + rewrite (getitem_below_range (data (direct_normal_irradiance w))) by lia.
      reflexivity.
    + rewrite (getitem_out_of_range (data (direct_normal_irradiance w))) by lia.
      reflexivity.
Qed.

End sample_facts.

(** The dict of an hourly engine without its two optional keys. *)
Lemma from_json_defaults_witness :
  exists w w',
    wea.from_epw_file (H := demo.world) "chicago.epw" 1 = OK w /\
    fst (wea.from_json (H := demo.world)
           (delete "timestep"%string
              (delete "is_leap_year"%string (wea.to_json w)))) = OK w' /\
    wea.timestep w' = 1 /\ wea.is_leap_year w' = JNone.
Proof.
  pose proof epw_engine as Hw.
  match type of Hw with _ = OK ?e => set (w := e) in * end.
  destruct (built_annual (H := demo.world) w (wea.built_from_epw_file _ _ _ Hw))
    as (_ & L1 & L2).
  pose proof (from_json_OK (H := demo.world)
                (delete "timestep"%string
                   (delete "is_leap_year"%string (wea.to_json w)))
                _ _ _ _ _ _ _ eq_refl eq_refl eq_refl
                (demo_location_round_trip _) (demo_collection_round_trip _)
                (demo_collection_round_trip _)
                (init_OK (H := demo.world) _ _ _ JNone JNone 1 eq_refl ltac:(lia) L1 L2))
    as Hj.
  destruct (from_json_defaults (H := demo.world) _ _ Hj) as [Hts Hleap].
  eexists. eexists. split; [exact Hw |]. split; [exact Hj |].
  split; [exact (Hts eq_refl) | exact (proj1 (Hleap eq_refl))].
Defined.

(** The diffuse series of an hourly engine assigned as its direct series. *)
Lemma setters_accept_annual_series_witness :
  exists w w',
    wea.from_epw_file (H := demo.world) "chicago.epw" 1 = OK w /\
    wea.set_direct_normal_irradiance w (wea.diffuse_horizontal_irradiance w) = OK w' /\
    wea.direct_normal_irradiance w' = wea.diffuse_horizontal_irradiance w.
Proof.
  pose proof epw_engine as Hw.
  match type of Hw with _ = OK ?e => set (w := e) in * end.
  pose proof (wea.built_from_epw_file _ _ _ Hw) as Hb.
  destruct (built_annual (H := demo.world) w Hb) as (_ & _ & L2).
  destruct (setters_accept_annual_series (H := demo.world) w
              (wea.diffuse_horizontal_irradiance w) Hb L2)
    as [(w' & Hset & Hd & _) _].
  exists w, w'. split; [exact Hw |]. split; [exact Hset | exact Hd].
Defined.

(** A call with timestep 0. *)
Lemma from_values_nonpositive_timestep_witness :
  wea.from_values (H := demo.world) demo.chicago [1%Q] [2%Q] 0 false
  = Raise ZeroDivisionError.
Proof.
  destruct (from_values_nonpositive_timestep (H := demo.world) demo.chicago
              [1%Q] [2%Q] 0 false ltac:(lia)) as [[_ Hz] | [Hneg _]];
    [exact Hz | lia].
Defined.

(** Two sequences of 8760 values for Chicago. *)
Lemma from_values_annual_input_raises_witness :
  wea.from_values (H := demo.world) demo.chicago
    (replicate 8760 1%Q) (replicate 8760 2%Q) 1 false =
  Raise (TypeError "__init__() got an unexpected keyword argument 'location'").
Proof.
  apply (from_values_annual_input_raises (H := demo.world) demo.chicago
           (replicate 8760 1%Q) (replicate 8760 2%Q) 1 false (1, JBool false)).
  - lia.
  - rewrite length_replicate. reflexivity.
  - rewrite length_replicate. reflexivity.
  - reflexivity.
Defined.

(** The hourly weather file of the demonstration world. *)
Lemma from_epw_file_hourly_witness :
  exists w,
    wea.from_epw_file (H := demo.world) "chicago.epw" 1 = OK w /\
    wea.timestep w = 1 /\ wea.is_leap_year w = JBool false.
Proof.
  pose proof epw_engine as Hw.
  destruct (from_epw_file_hourly (H := demo.world) _ _ Hw)
    as (epw & _ & _ & Hts & Hleap & _).
  eexists. split; [exact Hw |]. split; [exact Hts | exact Hleap].
Defined.

(** The hourly engine at noon of the first day. *)
Lemma irradiance_values_for_hoy_witness :
  exists w dir dif,
    wea.from_epw_file (H := demo.world) "chicago.epw" 1 = OK w /\
    wea.get_irradiance_values_for_hoy w 12 = OK (dir, dif) /\
    wea.data (wea.direct_normal_irradiance w) !! 12%nat = Some dir.
Proof.
  pose proof epw_engine as Hw.
  match type of Hw with _ = OK ?e => set (w := e) in * end.
  destruct (irradiance_values_for_hoy (H := demo.world) w 12
              (wea.built_from_epw_file _ _ _ Hw)) as [Hin _].
  destruct Hin as (dir & dif & Hg & Hd & _).
  { split; [apply Z.leb_le | apply Z.ltb_lt]; reflexivity. }
  exists w, dir, dif. split; [exact Hw |]. split; [exact Hg | exact Hd].
Defined.

(** ** Writing a wea file *)
Section write_facts.
Import wea.
Context `{Collaborators}.

Lemma getitem_raises_IndexError {A : Type} (l : list A) (i : Z) (e : exn) :
  getitem l i = Raise e -> e = IndexError.
Proof.
  unfold getitem, index. intros Hg.
  destruct (orb _ _); cbn in Hg; [congruence |].
  destruct (l !! _); congruence.
Qed.

Lemma get_irradiance_values_raises_IndexError (self : Wea) (hoy : Q) (e : exn) :
  get_irradiance_values_for_hoy self hoy = Raise e -> e = IndexError.
Proof.
  unfold get_irradiance_values_for_hoy. intros Hg.
  destruct (getitem (data (direct_normal_irradiance self)) _) eqn:E1; cbn in Hg.
  - destruct (getitem (data (diffuse_horizontal_irradiance self)) _) eqn:E2;
      cbn in Hg; [discriminate |].
    injection Hg as <-. eapply getitem_raises_IndexError, E2.
  - injection Hg as <-. eapply getitem_raises_IndexError, E1.
Qed.

(** One turn of the loop of [write]: an hour with a sample adds its line, and
    an hour without one adds a warning once [dt] is assigned. *)
Lemma write_hoy_sample (self : Wea) (st : write_state) (hoy : Q)
    (dir_rad dif_rad : DataPoint Q DateTime) :
  get_irradiance_values_for_hoy self hoy = OK (dir_rad, dif_rad) ->
  write_hoy self st hoy =
  OK {| lines := lines st ++ [data_line dir_rad dif_rad];
        dt := Some (datetime dir_rad);
        printed := printed st |}.
Proof. intros Hg. unfold write_hoy. rewrite Hg. reflexivity. Qed.

Lemma write_hoy_no_sample (self : Wea) (st : write_state) (hoy : Q) (e : exn)
    (d : DateTime) :
  get_irradiance_values_for_hoy self hoy = Raise e ->
  dt st = Some d ->
  write_hoy self st hoy =
  OK {| lines := lines st; dt := Some d;
        printed := printed st ++
          ["Warn: Wea data for " +:+ DateTime_str d +:+ " is not available!"] |}.
Proof.
  intros Hg Hd. apply get_irradiance_values_raises_IndexError in Hg as Hi. subst e.
  unfold write_hoy. rewrite Hg, Hd. reflexivity.
Qed.

(** The loop of [write] over requested hours, once [dt] is assigned: every
    hour with a sample adds its line, every other hour a warning. *)
Lemma write_hoys_loop (self : Wea) (hoys : list Q) (st : write_state)
    (d : DateTime) :
  dt st = Some d ->
  exists d',
    for_each (write_hoy self) hoys st =
    OK {| lines := lines st ++ omap (line_for_hoy self) hoys;
          dt := Some d';
          printed := printed st ++ warnings self d hoys |}.
Proof.
  revert st d. induction hoys as [|hoy hoys IH]; intros st d Hd.
  - exists d. cbn. rewrite !app_nil_r. destruct st. cbn in Hd. rewrite Hd. reflexivity.
  - cbn [for_each omap list_omap warnings]. unfold line_for_hoy at 1.
    destruct (get_irradiance_values_for_hoy self hoy) as [[dir_rad dif_rad]|e] eqn:Hg.
    + rewrite (write_hoy_sample self st hoy dir_rad dif_rad Hg).
      cbn [mbind result_bind].
      destruct (IH {| lines := lines st ++ [data_line dir_rad dif_rad];
                      dt := Some (datetime dir_rad);
                      printed := printed st |} (datetime dir_rad) eq_refl)
        as [d' Hloop].
      exists d'. rewrite Hloop. cbn [lines printed]. rewrite <- app_assoc. reflexivity.
    + rewrite (write_hoy_no_sample self st hoy e d Hg Hd).
      cbn [mbind result_bind].
      destruct (IH {| lines := lines st; dt := Some d;
                      printed := printed st ++
                        ["Warn: Wea data for " +:+ DateTime_str d +:+
                         " is not available!"] |} d eq_refl)
        as [d' Hloop].
      exists d'. rewrite Hloop. cbn [lines printed]. rewrite <- app_assoc. reflexivity.
Qed.

(** [write] with a list of hours whose first one has a sample, in terms of
    the definitions above. *)
Lemma write_subset_equation (self : Wea) (file_path : string) (hoy : Q)
    (hoys : list Q) (write_hours : bool) (dir_rad dif_rad : DataPoint Q DateTime) :
  get_irradiance_values_for_hoy self hoy = OK (dir_rad, dif_rad) ->
  write self file_path (Some (hoy :: hoys)) write_hours =
  (_ ← write_to_file (wea_path file_path)
         (String.concat EmptyString
            (header self :: data_line dir_rad dif_rad
               :: omap (line_for_hoy self) hoys));
   _ ← (if write_hours
        then write_to_file (drop_last 4 (wea_path file_path) +:+ ".hrs")
                           (String.concat "," (map str_of (hoy :: hoys)) +:+ nl)
        else OK tt);
   OK (wea_path file_path, warnings self (datetime dir_rad) hoys)).
Proof.
  intros Hfirst.
  destruct (write_hoys_loop self hoys
              {| lines := [header self] ++ [data_line dir_rad dif_rad];
                 dt := Some (datetime dir_rad); printed := [] |}
              (datetime dir_rad) eq_refl) as [d' Hloop].
  assert (Hlines : write_lines self (Some (hoy :: hoys)) =
                   OK {| lines := header self :: data_line dir_rad dif_rad
                                    :: omap (line_for_hoy self) hoys;
                         dt := Some d';
                         printed := warnings self (datetime dir_rad) hoys |}).
  { unfold write_lines. cbn [for_each].
    rewrite (write_hoy_sample self _ hoy dir_rad dif_rad Hfirst).
    cbn [mbind result_bind lines dt printed]. rewrite Hloop. reflexivity. }
  unfold write. rewrite Hlines. reflexivity.
Qed.

(** The texts of a wea file, written out: the six header lines, the line of
    a pair of samples (["%d %d %.3f %d %d\n"] of the month, the day and the
    hour of the direct normal sample and the two values), and the path with
    its extension. *)
Local Abbreviation header_text self :=
  ("place " +:+ city (location self) +:+ nl +:+
   "latitude " +:+ fmt_f 2 (latitude (location self)) +:+ nl +:+
   "longitude " +:+ fmt_f 2 (- longitude (location self))%Q +:+ nl +:+
   "time_zone " +:+ fmt_d (int_of (- time_zone (location self) * 15)%Q) +:+ nl +:+
   "site_elevation " +:+ fmt_f 1 (elevation (location self)) +:+ nl +:+
   "weather_data_file_units 1" +:+ nl).

Local Abbreviation line_text dir_rad dif_rad :=
  (fmt_d (month (datetime dir_rad)) +:+ " " +:+ fmt_d (day (datetime dir_rad)) +:+
   " " +:+ fmt_f 3 (float_hour (datetime dir_rad)) +:+ " " +:+
   fmt_d (int_of (value dir_rad)) +:+ " " +:+ fmt_d (int_of (value dif_rad)) +:+ nl).

Local Abbreviation path_text file_path :=
  (if endswith (str_lower file_path) ".wea" then file_path else file_path +:+ ".wea").

(** When the first requested hour has a sample, [write] with a list of hours
    never fails on a missing hour.  It hands [write_to_file] the path and the
    six header lines followed by the line of every requested hour that has a
    sample, in the order of the request, then, when asked to, the requested
    hours to the [.hrs] file; it returns the path and has printed one warning
    per requested hour without a sample, each naming the datetime of the hour
    written last before it. *)
Theorem write_subset_completes (self : Wea) (file_path : string) (hoy : Q)
    (hoys : list Q) (write_hours : bool) (dir_rad dif_rad : DataPoint Q DateTime) :
  get_irradiance_values_for_hoy self hoy = OK (dir_rad, dif_rad) ->
  write self file_path (Some (hoy :: hoys)) write_hours =
  (_ ← write_to_file (path_text file_path)
         (String.concat EmptyString
            (header_text self :: line_text dir_rad dif_rad
               :: omap (fun hoy =>
                          match get_irradiance_values_for_hoy self hoy with
                          | OK (dir_rad, dif_rad) => Some (line_text dir_rad dif_rad)
                          | Raise _ => None
                          end) hoys));
   _ ← (if write_hours
        then write_to_file (drop_last 4 (path_text file_path) +:+ ".hrs")
                           (String.concat "," (map str_of (hoy :: hoys)) +:+ nl)
        else OK tt);
   OK (path_text file_path, warnings self (datetime dir_rad) hoys)).
Proof. exact (write_subset_equation self file_path hoy hoys write_hours dir_rad dif_rad). Qed.

(** Without a list of hours, or with an empty one, [write] on an engine of
    annual length puts out the whole year.  It hands [write_to_file] the path
    and the six header lines followed by one line for each of the
    [timestep * hr_count] samples, the [i]-th of them made of the [i]-th
    samples of the two series, then, when asked to, the hours of the engine
    to the [.hrs] file; it returns the path and prints nothing. *)
Theorem write_whole_year (self : Wea) (file_path : string) (write_hours : bool) :
  built self ->
  let year :=
    map (fun '(dir_rad, dif_rad) => line_text dir_rad dif_rad)
        (zip (data (direct_normal_irradiance self))
             (data (diffuse_horizontal_irradiance self))) in
  write self file_path None write_hours =
    (_ ← write_to_file (path_text file_path)
           (String.concat EmptyString (header_text self :: year));
     _ ← (if write_hours
          then write_to_file (drop_last 4 (path_text file_path) +:+ ".hrs")
                             (String.concat ","
                                (map (fun p => str_of (hoy (datetime p)))
                                     (data (direct_normal_irradiance self))) +:+ nl)
          else OK tt);
     OK (path_text file_path, [])) /\
  write self file_path (Some []) write_hours = write self file_path None write_hours /\
  Z.of_nat (length year) = timestep self * hr_count (is_leap_year self) /\
  forall (i : nat) (p q : DataPoint Q DateTime),
    data (direct_normal_irradiance self) !! i = Some p ->
    data (diffuse_horizontal_irradiance self) !! i = Some q ->
    year !! i = Some (line_text p q).
Proof.
  intros Hw year. destruct (built_annual self Hw) as (_ & Hdir & Hdif).
  unfold len in Hdir, Hdif.
  split.
  { unfold write, write_lines, self_hoys, hoys. rewrite map_map. reflexivity. }
  split; [reflexivity |]. split.
  - unfold year. rewrite length_map, length_zip_with. lia.
  - intros i p q Hp Hq. unfold year. rewrite list_lookup_fmap.
    assert (Hzip : zip (data (direct_normal_irradiance self))
                       (data (diffuse_horizontal_irradiance self)) !! i = Some (p, q)).
    { apply lookup_zip_with_Some. exists p, q. repeat split; assumption. }
    rewrite Hzip. reflexivity.
Qed.

End write_facts.

(** Three requested hours of the engine of the weather file, the second of
    them past the end of the year: the call returns and has printed one
    warning, which names 00:30, the datetime of the hour written before. *)
Lemma write_subset_completes_witness :
  exists w,
    wea.from_epw_file (H := demo.world) "chicago.epw" 1 = OK w /\
    wea.write w "chicago.wea" (Some [0%Q; 8760%Q; 1%Q]) false =
    OK ("chicago.wea"%string, ["Warn: Wea data for 30 is not available!"%string]).
Proof.
  pose proof epw_engine as Hw.
  match type of Hw with _ = OK ?e => set (w := e) in * end.
  exists w. split; [exact Hw |].
  exact (write_subset_completes (H := demo.world) w "chicago.wea" 0%Q
           [8760%Q; 1%Q] false _ _ eq_refl).
Defined.

(** The whole year of the engine of the weather file. *)
Lemma write_whole_year_witness :
  exists w,
    wea.from_epw_file (H := demo.world) "chicago.epw" 1 = OK w /\
    wea.write w "chicago.wea" None true = OK ("chicago.wea"%string, []).
Proof.
  pose proof epw_engine as Hw.
  match type of Hw with _ = OK ?e => set (w := e) in * end.
  exists w. split; [exact Hw |].
  exact (proj1 (write_whole_year (H := demo.world) w "chicago.wea" true
                  (wea.built_from_epw_file _ _ _ Hw))).
Defined.

(** ** The derived irradiance series *)
Section derived_facts.
Import wea.
Context `{Collaborators}.

Local Abbreviation Point := (DataPoint Q DateTime).
Local Abbreviation PointR := (DataPoint R DateTime).
Local Open Scope R_scope.

Lemma Q2R_0 : Q2R 0 = 0.
Proof. unfold Q2R. cbn. lra. Qed.

(** The rows [directional_irradiance] computes under an isotropic sky for a
    ground reflectance given as a number. *)
Lemma directional_irradiance_rows (w : Wea) (alt az gr : R)
    (tot dir dif ref : list PointR) (i : nat) :
  directional_irradiance w alt az (inr gr) true = OK (tot, dir, dif, ref) ->
  let row :=
    isotropic_row (sunpath_of w) (pol2cart (radians az) (radians alt)) alt gr in
  let pairs := zip (data (direct_normal_irradiance w))
                   (data (diffuse_horizontal_irradiance w)) in
  tot !! i = (fun v => let '(srf_dir, srf_dif, srf_ref, dt) := row v in
                irradiance_point "Irradiance" (srf_dir + srf_dif + srf_ref) dt)
             <$> pairs !! i /\
  dir !! i = (fun v => let '(srf_dir, _, _, dt) := row v in
                irradiance_point "Irradiance" srf_dir dt) <$> pairs !! i /\
  dif !! i = (fun v => let '(_, srf_dif, _, dt) := row v in
                irradiance_point "Irradiance" srf_dif dt) <$> pairs !! i /\
  ref !! i = (fun v => let '(_, _, srf_ref, dt) := row v in
                irradiance_point "Irradiance" srf_ref dt) <$> pairs !! i.
Proof.
  intros Hd row pairs.
  pose proof (directional_irradiance_isotropic w alt az gr) as Hrows.
  cbv zeta in Hrows. rewrite Hrows in Hd. injection Hd as <- <- <- <-.
  rewrite !list_lookup_fmap. fold pairs row.
  destruct (pairs !! i) as [v|]; cbn; [| repeat split; reflexivity].
  repeat split; reflexivity.
Qed.


(** Under an isotropic sky the direct sample of [directional_irradiance] is
    never negative where the direct normal irradiance is not, and it is 0
    where the sun altitude is 0 or less. *)
Theorem directional_direct_never_negative (w : Wea) (alt az gr : R)
    (tot dir dif ref : list PointR) (i : nat) (p : Point) (pd : PointR) :
  directional_irradiance w alt az (inr gr) true = OK (tot, dir, dif, ref) ->
  data (direct_normal_irradiance w) !! i = Some p ->
  dir !! i = Some pd ->
  (0 <= value p)%Q ->
  0 <= value pd /\
  ((altitude (calculate_sun_from_date_time (sunpath_of w) (datetime p)) <= 0)%Q ->
   value pd = 0).
Proof.
  intros Hd Hp Hpd Hv.
  destruct (directional_irradiance_rows w alt az gr tot dir dif ref i Hd)
    as (_ & Hdir & _ & _).
  rewrite Hpd in Hdir.
  destruct (zip _ _ !! i) as [[p' q]|] eqn:Hzip; [| discriminate].
  apply lookup_zip_with_Some in Hzip as (p0 & q0 & Heq & Hp0 & Hq0).
  injection Heq as <- <-. rewrite Hp in Hp0. injection Hp0 as <-.
  cbn in Hdir. injection Hdir as ->. cbn [value irradiance_point].
  apply Qle_Rle in Hv. rewrite Q2R_0 in Hv.
  set (sun := calculate_sun_from_date_time (sunpath_of w) (datetime p)).
  destruct (positive (altitude sun)) eqn:Hpos; cbn [andb].
  - split.
    + unfold Rltb. destruct (Rlt_dec _ _) as [Hlt|_]; [| lra].
      apply Rmult_le_pos; [exact Hv |].
      unfold euclid.angle in Hlt |- *.
      match goal with |- 0 <= cos (acos ?x) =>
        pose proof (acos_bound x) as [Hlo _]; apply cos_ge_0; lra end.
    + intros Hle. apply not_positive_spec in Hle. congruence.
  - split; [lra | reflexivity].
Qed.

(** For a surface facing straight up (altitude 90, azimuth 180, isotropic
    sky) [directional_irradiance] returns, at every index, a reflected sample
    of 0 and a diffuse sample equal to the diffuse horizontal irradiance.
    Where the sun altitude is above 0 and at most 90 degrees its direct sample
    is the direct normal irradiance times the sine of the altitude, and its
    total the diffuse horizontal irradiance plus that; where the altitude is 0
    or less its direct sample is 0 and its total the diffuse horizontal
    irradiance. *)
Theorem horizontal_surface_irradiance (w : Wea) (gr : R)
    (tot dir dif ref : list PointR) (i : nat) (p q : Point) :
  directional_irradiance w 90 180 (inr gr) true = OK (tot, dir, dif, ref) ->
  data (direct_normal_irradiance w) !! i = Some p ->
  data (diffuse_horizontal_irradiance w) !! i = Some q ->
  let alt := altitude (calculate_sun_from_date_time (sunpath_of w) (datetime p)) in
  exists pt pd pf pr,
    tot !! i = Some pt /\ dir !! i = Some pd /\ dif !! i = Some pf /\
    ref !! i = Some pr /\
    value pr = 0 /\ value pf = Q2R (value q) /\
    ((0 < alt)%Q -> (alt <= 90)%Q ->
     value pd = Q2R (value p) * sin (radians (Q2R alt)) /\
     value pt = Q2R (value q) + Q2R (value p) * sin (radians (Q2R alt))) /\
    ((alt <= 0)%Q -> value pd = 0 /\ value pt = Q2R (value q)).
Proof.
  intros Hd Hp Hq alt.
  destruct (directional_irradiance_rows w 90 180 gr tot dir dif ref i Hd)
    as (Ht & Hdir & Hdif & Href).
  assert (Hzip : zip (data (direct_normal_irradiance w))
                     (data (diffuse_horizontal_irradiance w)) !! i = Some (p, q)).
  { apply lookup_zip_with_Some. exists p, q. repeat split; assumption. }
  rewrite Hzip in Ht, Hdir, Hdif, Href. cbn [fmap option_fmap option_map] in *.
  destruct (horizontal_row (sunpath_of w) gr p q) as (srf_dir & Hrow & Hup & Hdown).
  rewrite Hrow in Ht, Hdir, Hdif, Href.
  do 4 eexists.
  split; [exact Ht |]. split; [exact Hdir |]. split; [exact Hdif |].
  split; [exact Href |]. cbn [value irradiance_point].
  split; [reflexivity |]. split; [reflexivity |]. split.
  - intros H0 H90. rewrite (Hup H0 H90). fold alt. split; [reflexivity | ring].
  - intros Hle. rewrite (Hdown Hle). split; [reflexivity | ring].
Qed.

End derived_facts.


(** The same wall at 00:30 on the first of January, with the sun down. *)
Lemma directional_direct_never_negative_witness :
  exists w tot dir dif ref pd,
    wea.from_epw_file (H := demo.world) "chicago.epw" 1 = OK w /\
    wea.directional_irradiance w 0 180 (inr 0.2%R) true = OK (tot, dir, dif, ref) /\
    dir !! 0%nat = Some pd /\ (0 <= wea.value pd)%R.
Proof.
  pose proof epw_engine as Hw.
  match type of Hw with _ = OK ?e => set (w := e) in * end.
  pose proof (directional_irradiance_isotropic (H := demo.world) w 0 180 0.2) as Hdir.
  cbv zeta in Hdir.
  edestruct (directional_direct_never_negative (H := demo.world) w 0 180 0.2)
    with (i := 0%nat) as [Hpos _];
    [exact Hdir | reflexivity | reflexivity | apply Qle_bool_iff; reflexivity |].
  exists w. do 5 eexists.
  split; [exact Hw |]. split; [exact Hdir |]. split; [reflexivity | exact Hpos].
Defined.

(** The engine of the weather file at 12:30 on the first of January, with
    the sun at the zenith. *)
Lemma horizontal_surface_irradiance_witness :
  exists w tot dir dif ref pf pr,
    wea.from_epw_file (H := demo.world) "chicago.epw" 1 = OK w /\
    wea.directional_irradiance w 90 180 (inr 0.2%R) true = OK (tot, dir, dif, ref) /\
    dif !! 12%nat = Some pf /\ ref !! 12%nat = Some pr /\
    wea.value pr = 0%R /\ wea.value pf = Q2R 50.
Proof.
  pose proof epw_engine as Hw.
  match type of Hw with _ = OK ?e => set (w := e) in * end.
  pose proof (directional_irradiance_isotropic (H := demo.world) w 90 180 0.2) as Hdir.
  cbv zeta in Hdir.
  edestruct (horizontal_surface_irradiance (H := demo.world) w 0.2)
    with (i := 12%nat)
    as (pt & pd & pf & pr & _ & _ & Hpf & Hpr & Hr & Hf & _);
    [exact Hdir | reflexivity | reflexivity |].
  exists w. do 4 eexists. exists pf, pr.
  split; [exact Hw |]. split; [exact Hdir |]. split; [exact Hpf |].
  split; [exact Hpr |]. split; [exact Hr | exact Hf].
Defined.

(** ** The checks of the Zhang-Huang path *)
Section zhang_huang_facts.
Import wea.
Context `{Collaborators}.

(** Leaving [atmospheric_pressure] out of [from_zhang_huang_solar] is the same
    as passing the sea level pressure 101325 once per value of the cloud
    cover. *)
Theorem zhang_huang_default_pressure (loc : Location) (cc rh dbt ws : list Q)
    (ts : Z) (leap use_disc : bool) :
  from_zhang_huang_solar loc cc rh dbt ws None ts leap use_disc =
  from_zhang_huang_solar loc cc rh dbt ws (Some (replicate (length cc) 101325%Q))
                         ts leap use_disc.
Proof.
  unfold from_zhang_huang_solar, true_div.
  destruct (_ && _ && _); [| reflexivity]. cbn [assert mbind result_bind].
  destruct (ts =? 0) eqn:Hts; [reflexivity |]. apply Z.eqb_neq in Hts.
  cbn [mbind result_bind].
  destruct (Qeq_bool _ _) eqn:Hq; [| reflexivity].
  apply Qeq_bool_iff, (true_div_eq _ _ _ Hts) in Hq.
  cbn [assert mbind result_bind].
  rewrite bool_decide_eq_true_2 by apply length_replicate.
  replace (Z.to_nat (hr_count (JBool leap) * ts)) with (length cc) by lia.
  reflexivity.
Qed.

(** [from_zhang_huang_solar] compares the lengths of its four climate series
    before anything else: when they differ the call fails with the assertion
    on the lengths, whatever the timestep. *)
Theorem zhang_huang_lengths_must_match (loc : Location) (cc rh dbt ws : list Q)
    (ap : option (list Q)) (ts : Z) (leap use_disc : bool) :
  ~ (length cc = length rh /\ length rh = length dbt /\ length dbt = length ws) ->
  from_zhang_huang_solar loc cc rh dbt ws ap ts leap use_disc =
  Raise (AssertionError "lengths of input climate data must match.").
Proof.
  intros Hne. unfold from_zhang_huang_solar.
  destruct (_ && _ && _) eqn:Hb; [| reflexivity].
  exfalso. apply Hne.
  apply andb_true_iff in Hb as [Hb H3]. apply andb_true_iff in Hb as [H1 H2].
  apply bool_decide_eq_true in H1, H2, H3. repeat split; assumption.
Qed.

(** A pressure series is accepted by [from_zhang_huang_solar] only when it has
    the length of the other series: for annual inputs, a pressure series of
    another length fails the third assertion. *)
Theorem zhang_huang_pressure_length (loc : Location) (cc rh dbt ws p : list Q)
    (ts : Z) (leap use_disc : bool) :
  length cc = length rh -> length rh = length dbt -> length dbt = length ws ->
  ts <> 0 ->
  Z.of_nat (length cc) = ts * hr_count (JBool leap) ->
  length p <> length cc ->
  from_zhang_huang_solar loc cc rh dbt ws (Some p) ts leap use_disc =
  Raise (AssertionError
           "length pf atmospheric_pressure must match the other input lists.").
Proof.
  intros H1 H2 H3 Hts Hannual Hp. unfold from_zhang_huang_solar, true_div.
  cbv zeta.
  rewrite (bool_decide_eq_true_2 _ H1), (bool_decide_eq_true_2 _ H2),
          (bool_decide_eq_true_2 _ H3). cbn [andb assert mbind result_bind].
  apply Z.eqb_neq in Hts as Hts'. rewrite Hts'. cbn [mbind result_bind].
  assert (Hq : Qeq_bool (inject_Z (Z.of_nat (length cc)) / inject_Z ts)
                 (inject_Z (hr_count (JBool leap))) = true).
  { apply Qeq_bool_iff, true_div_eq; assumption. }
  rewrite Hq. cbn [assert mbind result_bind].
  rewrite bool_decide_eq_false_2 by assumption. reflexivity.
Qed.

End zhang_huang_facts.

(** Series of different lengths, with a timestep of 0. *)
Lemma zhang_huang_lengths_must_match_witness :
  wea.from_zhang_huang_solar (H := demo.world) demo.chicago [1%Q] [] [] [] None
    0 false false =
  Raise (AssertionError "lengths of input climate data must match.").
Proof.
  apply (zhang_huang_lengths_must_match (H := demo.world)).
  cbn. intros [Hne _]. discriminate Hne.
Defined.

(** Four hourly series of a year and a pressure series of one value. *)
Lemma zhang_huang_pressure_length_witness :
  wea.from_zhang_huang_solar (H := demo.world) demo.chicago
    (replicate 8760 0%Q) (replicate 8760 50%Q) demo.hour_numbers (replicate 8760 1%Q)
    (Some [101325%Q]) 1 false false =
  Raise (AssertionError
           "length pf atmospheric_pressure must match the other input lists.").
Proof.
  apply (zhang_huang_pressure_length (H := demo.world)).
  - vm_compute. reflexivity.
  - vm_compute. reflexivity.
  - vm_compute. reflexivity.
  - lia.
  - vm_compute. reflexivity.
  - vm_compute. discriminate.
Defined.

(** ** The optical data of a stat file *)
Section stat_facts.
Import wea.
Context `{Collaborators}.

Lemma check_missing_loop (name : string) (xs : list Q) (rest : list (option Q))
    (k : Z) :
  for_each (fun (_ : unit) '(i, x) =>
              match x with
              | None => Raise (ValueError
                  ("Missing optical depth data for " +:+ name +:+
                   " at month " +:+ fmt_d i))
              | Some _ => OK tt
              end)
           (zip (seqZ k (Z.of_nat (length (map Some xs ++ rest))))
                (map Some xs ++ rest)) tt =
  match rest with
  | None :: _ =>
    Raise (ValueError ("Missing optical depth data for " +:+ name +:+
                       " at month " +:+ fmt_d (k + Z.of_nat (length xs))))
  | _ =>
    for_each (fun (_ : unit) '(i, x) =>
                match x with
                | None => Raise (ValueError
                    ("Missing optical depth data for " +:+ name +:+
                     " at month " +:+ fmt_d i))
                | Some _ => OK tt
                end)
             (zip (seqZ (k + Z.of_nat (length xs)) (Z.of_nat (length rest))) rest) tt
  end.
Proof.
  revert k. induction xs as [|x xs IH]; intros k.
  - cbn [map app length]. rewrite Z.add_0_r.
    destruct rest as [|[y|] rest]; [reflexivity | reflexivity |].
    rewrite seqZ_cons by (cbn [length]; lia). reflexivity.
  - cbn [map app length]. rewrite seqZ_cons by lia. cbn [zip zip_with for_each].
    cbn [mbind result_bind].
    replace (Z.pred (Z.of_nat (S (length (map Some xs ++ rest)))))
      with (Z.of_nat (length (map Some xs ++ rest))) by lia.
    rewrite IH.
    replace (Z.succ k + Z.of_nat (length xs)) with (k + Z.of_nat (S (length xs)))
      by lia.
    reflexivity.
Qed.

Lemma check_missing_complete (name : string) (x : Q) (xs : list Q) :
  check_missing (map Some (x :: xs)) name = OK tt.
Proof.
  pose proof (check_missing_loop name (x :: xs) [] 0) as Hloop.
  rewrite app_nil_r in Hloop. exact Hloop.
Qed.

Lemma check_missing_gap (name : string) (xs : list Q) (rest : list (option Q)) :
  check_missing (map Some xs ++ None :: rest) name =
  Raise (ValueError ("Missing optical depth data for " +:+ name +:+
                     " at month " +:+ fmt_d (Z.of_nat (length xs)))).
Proof.
  unfold check_missing, enumerate.
  destruct (map Some xs ++ None :: rest) eqn:E.
  { destruct xs; discriminate. }
  rewrite <- E. rewrite (check_missing_loop name xs (None :: rest) 0).
  reflexivity.
Qed.

(** [check_missing] rejects an empty list, accepts a list without [None], and
    for a list with a [None] names the position of the first one, counted
    from 0, in its message. *)
Theorem check_missing_outcomes (name : string) (x : Q) (xs : list Q)
    (rest : list (option Q)) :
  check_missing [] name = Raise (ValueError "Stat file contains no optical data.") /\
  check_missing (map Some (x :: xs)) name = OK tt /\
  check_missing (map Some xs ++ None :: rest) name =
    Raise (ValueError ("Missing optical depth data for " +:+ name +:+
                       " at month " +:+ fmt_d (Z.of_nat (length xs)))).
Proof.
  split; [reflexivity |].
  split; [apply check_missing_complete | apply check_missing_gap].
Qed.

(** [from_stat_file] checks the beam optical depths before the diffuse ones,
    fails with the message of the first check that finds a gap, and otherwise
    is [from_ashrae_revised_clear_sky] on the location and the optical depths
    of the file. *)
Theorem from_stat_file_checks (statfile : string) (ts : Z) (leap : bool)
    (stat : STAT) :
  STAT_new statfile = OK stat ->
  (forall xs rest,
     monthly_tau_beam stat = map Some xs ++ None :: rest ->
     from_stat_file statfile ts leap =
     Raise (ValueError ("Missing optical depth data for monthly_tau_beam at month "
                        +:+ fmt_d (Z.of_nat (length xs))))) /\
  (forall x xs ys rest,
     monthly_tau_beam stat = map Some (x :: xs) ->
     monthly_tau_diffuse stat = map Some ys ++ None :: rest ->
     from_stat_file statfile ts leap =
     Raise (ValueError ("Missing optical depth data for monthly_tau_diffuse at month "
                        +:+ fmt_d (Z.of_nat (length ys))))) /\
  (forall x xs y ys,
     monthly_tau_beam stat = map Some (x :: xs) ->
     monthly_tau_diffuse stat = map Some (y :: ys) ->
     from_stat_file statfile ts leap =
     from_ashrae_revised_clear_sky (stat_location stat) (monthly_tau_beam stat)
                                   (monthly_tau_diffuse stat) ts leap).
Proof.
  intros Hstat. unfold from_stat_file. rewrite Hstat. cbn [mbind result_bind].
  split; [| split].
  - intros xs rest ->. rewrite check_missing_gap. reflexivity.
  - intros x xs ys rest -> ->.
    rewrite check_missing_complete, check_missing_gap. reflexivity.
  - intros x xs y ys Hb Hd. rewrite Hb, Hd.
    rewrite !check_missing_complete. reflexivity.
Qed.

End stat_facts.

(** Complete optical data in the stat file of the demonstration world. *)
Lemma from_stat_file_checks_witness :
  wea.from_stat_file (H := demo.world) "chicago.stat" 1 false =
  wea.from_ashrae_revised_clear_sky (H := demo.world) demo.chicago
    (replicate 12 (Some 0.3%Q)) (replicate 12 (Some 2.5%Q)) 1 false.
Proof.
  destruct (from_stat_file_checks (H := demo.world) "chicago.stat" 1 false _ eq_refl)
    as (_ & _ & Hcomplete).
  exact (Hcomplete 0.3%Q (replicate 11 0.3%Q) 2.5%Q (replicate 11 2.5%Q)
                   eq_refl eq_refl).
Defined.
